(** * Snaps UI components: the node schema and the state reducer

    A shallow embedding of
    - [packages/snaps-controllers/src/interface/utils.ts] ([constructState]),
    - the node schema of the UI package ([NodeStruct] ... [ComponentStruct]),
    and the properties of both that the specification states. *)

From Stdlib Require DecimalString.
From stdpp Require Import gmap strings list fin_maps.

Set Warnings "-register-all,-clear-no-such-hyp".
Open Scope string_scope.

(** ** Typed components

    The TypeScript types inferred from the structs ([Infer<typeof ...>]).
    An optional field [f?: T] is an [option T]. *)

Inductive ButtonVariants := Primary | Secondary.
Inductive ButtonTypes := ButtonTypes_Button | ButtonTypes_Submit.
Inductive InputTypes :=
  InputTypes_Text | InputTypes_Number | InputTypes_Password | InputTypes_Search.

(** The string value of each enum member. *)
Definition ButtonVariants_value (x : ButtonVariants) : string :=
  match x with Primary => "primary" | Secondary => "secondary" end.

Definition ButtonTypes_value (x : ButtonTypes) : string :=
  match x with ButtonTypes_Button => "button" | ButtonTypes_Submit => "submit" end.

Definition InputTypes_value (x : InputTypes) : string :=
  match x with
  | InputTypes_Text => "text"
  | InputTypes_Number => "number"
  | InputTypes_Password => "password"
  | InputTypes_Search => "search"
  end.

Record Button := mkButton {
  button_value : string;
  button_variant : option ButtonVariants;
  button_buttonType : option ButtonTypes;
  button_name : option string
}.

Record Input := mkInput {
  input_value : option string;
  input_name : string;
  input_inputType : option InputTypes;
  input_placeholder : option string;
  input_label : option string
}.

(** [Component] is the union of the nine node kinds.  TypeScript's
    [FormComponent = Input | Button] is a structural subtype of [Component],
    and [constructState] is called on a Form's children as on any other
    component; so the children of a Form are stored as components here and
    the restriction to Input and Button is the predicate [isFormComponent]
    (see [typed]). *)
Inductive Component :=
| Copyable (value : string)
| Divider
| Heading (value : string)
| Panel (children : list Component)
| Spinner
| Text (value : string)
| ButtonNode (b : Button)
| InputNode (i : Input)
| Form (name : string) (children : list Component).

Definition isFormComponent (c : Component) : bool :=
  match c with
  | InputNode _ | ButtonNode _ => true
  | _ => false
  end.

(** A component is well typed when every Form below it has only Input and
    Button children. *)
Fixpoint typed (c : Component) : bool :=
  match c with
  | Panel children => forallb typed children
  | Form _ children => forallb isFormComponent children
  | _ => true
  end.

(** ** Component state *)

(** Modelled from the spec: the declaration of the type [ComponentState] is
    not among the sources (only its re-export is).  Section 3 of the
    specification: a mapping from string keys to values, where each value is
    either a plain string or a nested mapping (the state produced by one
    Form's children). *)
Inductive StateValue :=
| SVString (s : string)
| SVState (m : gmap string StateValue).

Abbreviation ComponentState := (gmap string StateValue).

(** ** The state reducer *)

(** [array.reduce(f, init)] is a left fold. *)
Definition reduce {A B : Type} (f : B -> A -> B) (init : B) (l : list A) : B :=
  fold_left f l init.

(** [constructState]: [{ ...state, [k]: v }] copies the own properties of
    [state] and then defines [k], which is [<[k:=v]> state]; [value ?? ''] is
    [default "" value]. *)
Fixpoint constructState (state : ComponentState) (component : Component)
  {struct component} : ComponentState :=
  match component with
  | Panel children =>
      reduce (fun acc node => constructState acc node) state children
  | Form name children =>
      <[name := SVState
                  (reduce (fun acc node => constructState acc node) ∅ children)]>
        state
  | InputNode i =>
      <[input_name i := SVString (default "" (input_value i))]> state
  | _ => state
  end.

(** ** Raw values

    The untrusted values that validation receives: JavaScript values as
    parsed from JSON, plus [undefined].  An object is the list of its own
    enumerable properties in insertion order. *)
Inductive json :=
| JUndefined
| JNull
| JBool (b : bool)
| JNumber (n : Z)
| JString (s : string)
| JArray (elements : list json)
| JObject (fields : list (string * json)).

(** [value[k]] on the properties of an object: [undefined] when [k] is not
    a property. *)
Fixpoint get (k : string) (fields : list (string * json)) : json :=
  match fields with
  | [] => JUndefined
  | (k', v) :: rest => if String.eqb k k' then v else get k rest
  end.

(** Nesting depth of a raw value. *)
Fixpoint depth (v : json) : nat :=
  match v with
  | JArray elements => S (list_max (map depth elements))
  | JObject fields => S (list_max (map (fun kv => depth (snd kv)) fields))
  | _ => 0
  end.

(** ** The struct combinators *)

(** Modelled from the spec: the combinators come from the third-party
    package [superstruct], which is not among the sources.  Section 4.1 of
    the specification fixes what they accept: a value matches a kind when the
    required fields are present with the correct primitive types, the
    optional fields are absent or correctly typed, the literal tag matches,
    and it carries no field outside the kind's contract; a union accepts
    what one of its members accepts; an array struct accepts arrays whose
    every entry is accepted.  A struct is kept as syntax; [run] gives it its
    meaning.  [lazy_] stands for [lazy(() => ComponentStruct)], the only lazy
    struct of the schema. *)
Inductive Struct :=
| string_
| unknown
| literal (constant : string)
| optional (T : Struct)
| union_ (Structs : list Struct)
| array (Element : Struct)
| object (schema : list (string * Struct))
| lazy_.

(** Whether a schema declares key [k]. *)
Definition declares (k : string) (schema : list (string * Struct)) : bool :=
  existsb (fun kT => String.eqb k (fst kT)) schema.

(** [{ ...schema, [k]: T }] on an ordered schema: an existing key keeps its
    position and takes the new struct, a new key goes last. *)
Fixpoint set_key (k : string) (T : Struct) (schema : list (string * Struct))
  : list (string * Struct) :=
  match schema with
  | [] => [(k, T)]
  | (k', T') :: rest =>
      if String.eqb k k' then (k, T) :: rest else (k', T') :: set_key k T rest
  end.

Definition schema_of (T : Struct) : list (string * Struct) :=
  match T with
  | object schema => schema
  | _ => []
  end.

(** Modelled from the spec: [assign] of [superstruct], missing from the
    sources.  [assign(A, B)] is the object struct of
    [{ ...A.schema, ...B.schema }]: the fields of both, those of [B]
    replacing fields of [A] with the same key (section 3: a concrete kind
    extends the base shape and fixes its tag and the type of its value). *)
Definition assign (A B : Struct) : Struct :=
  object (fold_left (fun acc kT => set_key (fst kT) (snd kT) acc)
            (schema_of B) (schema_of A)).

(** Modelled from the spec: what each [superstruct] combinator accepts,
    missing from the sources (section 4.1).  [run self T v]: whether struct
    [T] accepts the raw value [v], where [self] decides the lazily referenced
    [ComponentStruct].  An object struct accepts objects only, checks every
    declared key against [v[k]] ([undefined] when absent, which only an
    optional or unknown field accepts) and refuses every property of [v]
    that is not declared.  Every object struct of the schema requires a
    [type], which no array has, so arrays are refused as non-objects are. *)
Fixpoint run (self : json -> bool) (T : Struct) (v : json) {struct T} : bool :=
  match T with
  | string_ => match v with JString _ => true | _ => false end
  | unknown => true
  | literal constant =>
      match v with JString s => String.eqb s constant | _ => false end
  | optional T' =>
      match v with JUndefined => true | _ => run self T' v end
  | union_ Structs => existsb (fun T' => run self T' v) Structs
  | array Element =>
      match v with
      | JArray elements => forallb (fun e => run self Element e) elements
      | _ => false
      end
  | object schema =>
      match v with
      | JObject fields =>
          forallb (fun kT => run self (snd kT) (get (fst kT) fields)) schema
          && forallb (fun kv => declares (fst kv) schema) fields
      | _ => false
      end
  | lazy_ => self v
  end.

(** ** The node schema *)

Definition NodeStruct : Struct := object [("type", string_)].

Definition ParentStruct : Struct :=
  assign NodeStruct (object [("children", array lazy_)]).

Definition LiteralStruct : Struct :=
  assign NodeStruct (object [("value", unknown)]).

Module NodeType.
Definition Copyable := "copyable".
Definition Divider := "divider".
Definition Heading := "heading".
Definition Panel := "panel".
Definition Spinner := "spinner".
Definition Text := "text".
Definition Button := "button".
Definition Input := "input".
Definition Form := "form".
End NodeType.

Definition CopyableStruct : Struct :=
  assign LiteralStruct
    (object [("type", literal NodeType.Copyable); ("value", string_)]).

Definition DividerStruct : Struct :=
  assign NodeStruct (object [("type", literal NodeType.Divider)]).

Definition HeadingStruct : Struct :=
  assign LiteralStruct
    (object [("type", literal NodeType.Heading); ("value", string_)]).

Definition PanelStruct : Struct :=
  assign ParentStruct (object [("type", literal NodeType.Panel)]).

Definition SpinnerStruct : Struct :=
  assign NodeStruct (object [("type", literal NodeType.Spinner)]).

Definition TextStruct : Struct :=
  assign LiteralStruct
    (object [("type", literal NodeType.Text); ("value", string_)]).

Definition ButtonStruct : Struct :=
  assign LiteralStruct
    (object [("type", literal NodeType.Button);
             ("value", string_);
             ("variant",
              optional (union_ [literal (ButtonVariants_value Primary);
                                literal (ButtonVariants_value Secondary)]));
             ("buttonType",
              optional (union_ [literal (ButtonTypes_value ButtonTypes_Button);
                                literal (ButtonTypes_value ButtonTypes_Submit)]));
             ("name", optional string_)]).

Definition InputStruct : Struct :=
  assign NodeStruct
    (object [("type", literal NodeType.Input);
             ("value", optional string_);
             ("name", string_);
             ("inputType",
              optional (union_ [literal (InputTypes_value InputTypes_Text);
                                literal (InputTypes_value InputTypes_Password);
                                literal (InputTypes_value InputTypes_Number);
                                literal (InputTypes_value InputTypes_Search)]));
             ("placeholder", optional string_);
             ("label", optional string_)]).

Definition FormComponentStruct : Struct := union_ [InputStruct; ButtonStruct].

Definition FormStruct : Struct :=
  assign NodeStruct
    (object [("type", literal NodeType.Form);
             ("children", array FormComponentStruct);
             ("name", string_)]).

Definition ComponentStruct : Struct :=
  union_ [CopyableStruct; DividerStruct; HeadingStruct; PanelStruct;
          SpinnerStruct; TextStruct; ButtonStruct; InputStruct; FormStruct].

(** ** Validation *)

(** [validate_fuel n T v] runs [T] on [v] and unfolds the lazy reference to
    [ComponentStruct] at most [n] times along a path of the value. *)
Fixpoint validate_fuel (n : nat) (T : Struct) (v : json) : bool :=
  match n with
  | 0 => false
  | S n' => run (validate_fuel n' ComponentStruct) T v
  end.

(** [is(value, struct)].  In the schema the lazy reference sits below
    [children: array(...)], so each unfolding is at a strictly smaller
    depth and [S (depth v)] unfoldings are enough ([validate_fuel_enough]). *)
Definition is_valid (T : Struct) (v : json) : bool :=
  validate_fuel (S (depth v)) T v.

(** Whether every lazy reference of a struct sits below an array or an
    object struct. *)
Fixpoint guarded (T : Struct) : bool :=
  match T with
  | lazy_ => false
  | optional T' => guarded T'
  | union_ Structs => forallb guarded Structs
  | _ => true
  end.

(** ** From typed components to raw values

    The raw value that a typed component is: the object with the tag and
    the fields of its kind, an optional field being a property only when it
    is given. *)

Definition opt_field (k : string) (o : option string) : list (string * json) :=
  match o with
  | Some s => [(k, JString s)]
  | None => []
  end.

Definition Button_raw (b : Button) : json :=
  JObject ([("type", JString NodeType.Button); ("value", JString (button_value b))]
           ++ opt_field "variant" (ButtonVariants_value <$> button_variant b)
           ++ opt_field "buttonType" (ButtonTypes_value <$> button_buttonType b)
           ++ opt_field "name" (button_name b)).

Definition Input_raw (i : Input) : json :=
  JObject ([("type", JString NodeType.Input)]
           ++ opt_field "value" (input_value i)
           ++ [("name", JString (input_name i))]
           ++ opt_field "inputType" (InputTypes_value <$> input_inputType i)
           ++ opt_field "placeholder" (input_placeholder i)
           ++ opt_field "label" (input_label i)).

Fixpoint raw (c : Component) : json :=
  match c with
  | Copyable value =>
      JObject [("type", JString NodeType.Copyable); ("value", JString value)]
  | Divider => JObject [("type", JString NodeType.Divider)]
  | Heading value =>
      JObject [("type", JString NodeType.Heading); ("value", JString value)]
  | Panel children =>
      JObject [("type", JString NodeType.Panel);
               ("children", JArray (map raw children))]
  | Spinner => JObject [("type", JString NodeType.Spinner)]
  | Text value =>
      JObject [("type", JString NodeType.Text); ("value", JString value)]
  | ButtonNode b => Button_raw b
  | InputNode i => Input_raw i
  | Form name children =>
      JObject [("type", JString NodeType.Form);
               ("children", JArray (map raw children));
               ("name", JString name)]
  end.

(** ** Vocabulary of the specification *)

(** The names of the Inputs and Forms that a traversal visits in the scope
    of the accumulator it is given: a Panel passes its accumulator on to its
    children, a Form keeps its children in a scope of its own. *)
Fixpoint scopeNames (c : Component) : list string :=
  match c with
  | Panel children => flat_map scopeNames children
  | Form name _ => [name]
  | InputNode i => [input_name i]
  | _ => []
  end.

(** The names of the Input children among the children of a Form. *)
Definition inputNames (children : list Component) : list string :=
  flat_map (fun c => match c with InputNode i => [input_name i] | _ => [] end)
    children.

(** The nine type tags and the struct of each. *)
Definition kinds : list (string * Struct) :=
  [(NodeType.Copyable, CopyableStruct); (NodeType.Divider, DividerStruct);
   (NodeType.Heading, HeadingStruct); (NodeType.Panel, PanelStruct);
   (NodeType.Spinner, SpinnerStruct); (NodeType.Text, TextStruct);
   (NodeType.Button, ButtonStruct); (NodeType.Input, InputStruct);
   (NodeType.Form, FormStruct)].

(** The keys of the properties of an object. *)
Definition keys (fields : list (string * json)) : list string := map fst fields.

(** [value.type], [undefined] on a value that is not an object. *)
Definition typeTag (v : json) : json :=
  match v with
  | JObject fields => get "type" fields
  | _ => JUndefined
  end.

(** The value that the last Input named [k] among [children] gives, when
    an Input of that name is among them. *)
Fixpoint inputValue (k : string) (children : list Component) : option string :=
  match children with
  | [] => None
  | c :: rest =>
      match inputValue k rest with
      | Some v => Some v
      | None =>
          match c with
          | InputNode i =>
              if String.eqb (input_name i) k
              then Some (default "" (input_value i))
              else None
          | _ => None
          end
      end
  end.

(** The shapes of a state: a mapping of strings only, and a mapping of
    strings and of mappings of strings. *)
Definition isString (v : StateValue) : bool :=
  match v with
  | SVString _ => true
  | SVState _ => false
  end.

Definition stringsOnly (m : ComponentState) : Prop :=
  map_Forall (fun _ v => isString v = true) m.

Definition serializable (m : ComponentState) : Prop :=
  map_Forall (fun _ v => match v with
                         | SVString _ => True
                         | SVState nested => stringsOnly nested
                         end) m.

(** ** The user input events of [snaps-utils/src/handlers.ts]

    The event structs that the combinators above express.
    [FormSubmitEventStruct] needs [record(string(), string())] and
    [UserInputEventStruct] is the union with it; they are left out. *)

Module UserInputEventTypes.
Definition ButtonClickEvent := "ButtonClickEvent".
Definition FormSubmitEvent := "FormSubmitEvent".
Definition InputChangeEvent := "InputChangeEvent".
End UserInputEventTypes.

Definition GenericEventStruct : Struct :=
  object [("type", string_); ("name", optional string_)].

Definition ButtonClickEventStruct : Struct :=
  assign GenericEventStruct
    (object [("type", literal UserInputEventTypes.ButtonClickEvent)]).

Definition InputChangeEventStruct : Struct :=
  assign GenericEventStruct
    (object [("type", literal UserInputEventTypes.InputChangeEvent);
             ("value", string_)]).

(** ** The failures of a validation

    How [superstruct] (1.x), the third-party package that the sources
    import and that is not among them, reports why a value is refused; it
    follows the package's [run], [validate] and the validators of its types.
    A run yields failures in a fixed order: first the failure of the
    struct's own validator at the current path, then, entry by entry, the
    failures of the entries of the value.  A failure carries the [type] of
    the struct whose validator refused, the path of keys and indices from
    the root, and the refused value.  The validator of a union runs its
    members in order at its own path: it yields nothing when a member yields
    nothing, and otherwise its own failure followed by the failures of every
    member.  [optional] and [lazy] pass on the failures of the struct they
    wrap. *)














(** ** The field contracts of the specification

    The table of section 3, in the words of section 4.1: the required
    fields present with the correct primitive types, the optional fields
    absent or correctly typed, the tag of the kind, and no other field.
    A field is read with [get], so an absent field reads [undefined]. *)

Definition isStr (v : json) : Prop := exists s, v = JString s.

Definition optStr (v : json) : Prop := v = JUndefined ∨ isStr v.

Definition optEnum (allowed : list string) (v : json) : Prop :=
  v = JUndefined ∨ exists s, v = JString s ∧ In s allowed.

Definition onlyKeys (allowed : list string) (fields : list (string * json))
  : Prop :=
  forall k, In k (keys fields) -> In k allowed.

(** Divider and Spinner: the tag only. *)
Definition NodeContract (tag : string) (fields : list (string * json)) : Prop :=
  get "type" fields = JString tag ∧ onlyKeys ["type"] fields.

(** Copyable, Heading and Text: the tag and a string value. *)
Definition LiteralContract (tag : string) (fields : list (string * json))
  : Prop :=
  get "type" fields = JString tag
  ∧ isStr (get "value" fields)
  ∧ onlyKeys ["type"; "value"] fields.

Definition ButtonContract (fields : list (string * json)) : Prop :=
  get "type" fields = JString "button"
  ∧ isStr (get "value" fields)
  ∧ optEnum ["primary"; "secondary"] (get "variant" fields)
  ∧ optEnum ["button"; "submit"] (get "buttonType" fields)
  ∧ optStr (get "name" fields)
  ∧ onlyKeys ["type"; "value"; "variant"; "buttonType"; "name"] fields.

Definition InputContract (fields : list (string * json)) : Prop :=
  get "type" fields = JString "input"
  ∧ optStr (get "value" fields)
  ∧ isStr (get "name" fields)
  ∧ optEnum ["text"; "password"; "number"; "search"] (get "inputType" fields)
  ∧ optStr (get "placeholder" fields)
  ∧ optStr (get "label" fields)
  ∧ onlyKeys ["type"; "value"; "name"; "inputType"; "placeholder"; "label"]
      fields.

(** A child of a Form: an Input or a Button. *)
Definition FormComponentContract (v : json) : Prop :=
  exists fields, v = JObject fields ∧ (InputContract fields ∨ ButtonContract fields).

(** A raw value matches the contract of one of the nine kinds. *)
Inductive ComponentContract : json -> Prop :=
| Copyable_contract fields :
    LiteralContract "copyable" fields -> ComponentContract (JObject fields)
| Divider_contract fields :
    NodeContract "divider" fields -> ComponentContract (JObject fields)
| Heading_contract fields :
    LiteralContract "heading" fields -> ComponentContract (JObject fields)
| Panel_contract fields children :
    get "type" fields = JString "panel" ->
    get "children" fields = JArray children ->
    Forall ComponentContract children ->
    onlyKeys ["type"; "children"] fields ->
    ComponentContract (JObject fields)
| Spinner_contract fields :
    NodeContract "spinner" fields -> ComponentContract (JObject fields)
| Text_contract fields :
    LiteralContract "text" fields -> ComponentContract (JObject fields)
| Button_contract fields :
    ButtonContract fields -> ComponentContract (JObject fields)
| Input_contract fields :
    InputContract fields -> ComponentContract (JObject fields)
| Form_contract fields children :
    get "type" fields = JString "form" ->
    get "children" fields = JArray children ->
    Forall FormComponentContract children ->
    isStr (get "name" fields) ->
    onlyKeys ["type"; "children"; "name"] fields ->
    ComponentContract (JObject fields).

(** The fields that the contract of each kind allows. *)
Definition contractFields : list (string * list string) :=
  [("copyable", ["type"; "value"]);
   ("divider", ["type"]);
   ("heading", ["type"; "value"]);
   ("panel", ["type"; "children"]);
   ("spinner", ["type"]);
   ("text", ["type"; "value"]);
   ("button", ["type"; "value"; "variant"; "buttonType"; "name"]);
   ("input", ["type"; "value"; "name"; "inputType"; "placeholder"; "label"]);
   ("form", ["type"; "children"; "name"])].

(** * Properties of the state reducer *)

(** Induction over components with the children of a Panel and of a Form
    covered. *)
Lemma Component_induction (P : Component -> Prop) :
  (forall value, P (Copyable value)) ->
  P Divider ->
  (forall value, P (Heading value)) ->
  (forall children, Forall P children -> P (Panel children)) ->
  P Spinner ->
  (forall value, P (Text value)) ->
  (forall b, P (ButtonNode b)) ->
  (forall i, P (InputNode i)) ->
  (forall name children, Forall P children -> P (Form name children)) ->
  forall c, P c.
Proof.
  intros HC HD HH HP HS HT HB HI HF.
  fix IH 1. intros [v| |v|cs| |v|b|i|n cs].
  - apply HC.
  - apply HD.
  - apply HH.
  - apply HP. induction cs as [|c cs IHcs]; constructor; [apply IH | exact IHcs].
  - apply HS.
  - apply HT.
  - apply HB.
  - apply HI.
  - apply HF. induction cs as [|c cs IHcs]; constructor; [apply IH | exact IHcs].
Qed.

Lemma constructState_Panel_fold (state : ComponentState) children :
  constructState state (Panel children) = fold_left constructState children state.
Proof. reflexivity. Qed.

Lemma constructState_Form_fold (state : ComponentState) name children :
  constructState state (Form name children)
  = <[name := SVState (fold_left constructState children ∅)]> state.
Proof. reflexivity. Qed.

(** A fold of the reducer leaves a key alone when no child names it. *)
Lemma fold_constructState_other (children : list Component) :
  Forall (fun c => forall (seed : ComponentState) k,
             k ∉ scopeNames c -> constructState seed c !! k = seed !! k)
    children ->
  forall (seed : ComponentState) k,
    k ∉ flat_map scopeNames children ->
    fold_left constructState children seed !! k = seed !! k.
Proof.
  induction 1 as [|c cs Hc _ IH]; intros seed k Hk; [done|].
  cbn in Hk |- *. rewrite elem_of_app in Hk.
  rewrite IH by tauto. apply Hc. tauto.
Qed.

Lemma constructState_other (c : Component) :
  forall (seed : ComponentState) k,
    k ∉ scopeNames c -> constructState seed c !! k = seed !! k.
Proof.
  induction c as [v| |v|cs IH| |v|b|i|n cs _] using Component_induction;
    intros seed k Hk; try reflexivity.
  - rewrite constructState_Panel_fold. by apply fold_constructState_other.
  - cbn in Hk |- *. apply lookup_insert_ne. set_solver.
  - rewrite constructState_Form_fold. apply lookup_insert_ne.
    cbn in Hk. set_solver.
Qed.

(** A fold of the reducer keeps every key it is given. *)
Lemma fold_constructState_keeps (children : list Component) :
  Forall (fun c => forall (seed : ComponentState) k,
             is_Some (seed !! k) -> is_Some (constructState seed c !! k))
    children ->
  forall (seed : ComponentState) k,
    is_Some (seed !! k) -> is_Some (fold_left constructState children seed !! k).
Proof.
  induction 1 as [|c cs Hc _ IH]; intros seed k Hk; [done|].
  cbn. apply IH, Hc, Hk.
Qed.

Lemma constructState_keeps (c : Component) :
  forall (seed : ComponentState) k,
    is_Some (seed !! k) -> is_Some (constructState seed c !! k).
Proof.
  induction c as [v| |v|cs IH| |v|b|i|n cs _] using Component_induction;
    intros seed k Hk; try exact Hk.
  - rewrite constructState_Panel_fold. by apply fold_constructState_keeps.
  - cbn. rewrite lookup_insert. case_decide; [by eexists | exact Hk].
  - rewrite constructState_Form_fold, lookup_insert.
    case_decide; [by eexists | exact Hk].
Qed.

(** The keys after folding the reducer over Input and Button children. *)
Lemma fold_formComponents_dom (children : list Component) :
  forallb isFormComponent children = true ->
  forall acc : ComponentState,
    dom (fold_left constructState children acc)
    = dom acc ∪ list_to_set (inputNames children).
Proof.
  induction children as [|c cs IH]; intros Hty acc.
  - cbn. set_solver.
  - cbn in Hty. apply andb_true_iff in Hty as [Hc Hcs].
    cbn [fold_left]. rewrite (IH Hcs).
    destruct c; try discriminate Hc; cbn.
    + set_solver.
    + rewrite dom_insert_L. set_solver.
Qed.

(** C1: for every Form and every seed state, the nested state is the fold of
    the reducer over the Form's children from the empty accumulator, it is
    stored at the Form's name in the seed, and whatever the seed held at
    that name is replaced: the value at the name does not depend on the
    seed. *)
Theorem constructState_Form_replaces
    (state : ComponentState) (name : string) (children : list Component) :
  constructState state (Form name children)
  = <[name := SVState (fold_left constructState children ∅)]> state
  ∧ constructState state (Form name children) !! name
    = Some (SVState (fold_left constructState children ∅))
  ∧ (forall prior : StateValue,
        constructState (<[name := prior]> state) (Form name children)
        = constructState state (Form name children))
  ∧ (forall state' : ComponentState,
        constructState state' (Form name children) !! name
        = constructState state (Form name children) !! name).
Proof.
  repeat split.
  - rewrite constructState_Form_fold. apply lookup_insert_eq.
  - intros prior. rewrite !constructState_Form_fold. apply insert_insert_eq.
  - intros state'. rewrite !constructState_Form_fold.
    by rewrite !lookup_insert_eq.
Qed.

(** C3: for every Panel and every seed state, the reducer folds over the
    children from left to right and threads the accumulator through them;
    for two Input children with one name the value at that name is the
    value of the later child. *)
Theorem constructState_Panel_in_order
    (state : ComponentState) (children : list Component) :
  constructState state (Panel children) = fold_left constructState children state
  ∧ (forall child,
        constructState state (Panel (child :: children))
        = constructState (constructState state child) (Panel children))
  ∧ (forall child,
        constructState state (Panel (children ++ [child]))
        = constructState (constructState state (Panel children)) child)
  ∧ (forall name v1 v2 t1 t2 p1 p2 l1 l2,
        constructState state
          (Panel [InputNode (mkInput v1 name t1 p1 l1);
                  InputNode (mkInput v2 name t2 p2 l2)]) !! name
        = Some (SVString (default "" v2))).
Proof.
  repeat split.
  - intros child. rewrite !constructState_Panel_fold. apply fold_left_app.
  - intros. cbn. apply lookup_insert_eq.
Qed.

(** C4: for every Form whose children are Inputs and Buttons, derived into
    the empty seed, the result has exactly one key, the Form's name, and the
    value there is a mapping whose keys are exactly the names of the Input
    children; a Button child leaves every accumulator as it is. *)
Theorem constructState_Form_keys (name : string) (children : list Component) :
  forallb isFormComponent children = true ->
  (exists nested : ComponentState,
      constructState ∅ (Form name children) = {[name := SVState nested]}
      ∧ dom nested = list_to_set (inputNames children))
  ∧ dom (constructState ∅ (Form name children)) = {[name]}
  ∧ (forall (acc : ComponentState) b, constructState acc (ButtonNode b) = acc).
Proof.
  intros Hty. repeat split.
  - exists (fold_left constructState children ∅). split.
    + by rewrite constructState_Form_fold, insert_empty.
    + rewrite (fold_formComponents_dom _ Hty). set_solver.
  - rewrite constructState_Form_fold, dom_insert_L. set_solver.
Qed.

Lemma constructState_Form_keys_witness :
  forallb isFormComponent
    [InputNode (mkInput (Some "x") "a" None None None);
     ButtonNode (mkButton "Go" None None (Some "b"))] = true
  ∧ dom (constructState ∅
           (Form "f" [InputNode (mkInput (Some "x") "a" None None None);
                      ButtonNode (mkButton "Go" None None (Some "b"))]))
    = {["f"]}.
Proof.
  split; [reflexivity|].
  apply (constructState_Form_keys "f"
           [InputNode (mkInput (Some "x") "a" None None None);
            ButtonNode (mkButton "Go" None None (Some "b"))]).
  reflexivity.
Defined.

(** C7: for every seed state and every component, every key of the seed is
    a key of the reducer's result, and a key that is not the name of an
    Input or Form visited in the accumulator's scope has the value it had
    in the seed. *)
Theorem constructState_preserves_seed
    (seed : ComponentState) (component : Component) (k : string) :
  (is_Some (seed !! k) -> is_Some (constructState seed component !! k))
  ∧ (k ∉ scopeNames component ->
     constructState seed component !! k = seed !! k).
Proof.
  split; [apply constructState_keeps | apply constructState_other].
Qed.

Lemma constructState_preserves_seed_witness :
  is_Some (({["keep" := SVString "v"]} : ComponentState) !! "keep")
  ∧ ("keep" ∉ scopeNames (Panel [InputNode (mkInput None "a" None None None)]))
  ∧ is_Some (constructState {["keep" := SVString "v"]}
               (Panel [InputNode (mkInput None "a" None None None)]) !! "keep")
  ∧ constructState {["keep" := SVString "v"]}
      (Panel [InputNode (mkInput None "a" None None None)]) !! "keep"
    = Some (SVString "v").
Proof.
  assert (Hin : is_Some (({["keep" := SVString "v"]} : ComponentState) !! "keep"))
    by (exists (SVString "v"); reflexivity).
  assert (Hout : "keep" ∉ scopeNames
                   (Panel [InputNode (mkInput None "a" None None None)]))
    by (apply (bool_decide_unpack _); vm_compute; exact I).
  destruct (constructState_preserves_seed {["keep" := SVString "v"]}
              (Panel [InputNode (mkInput None "a" None None None)]) "keep")
    as [Hkeeps Hother].
  split; [exact Hin|]. split; [exact Hout|].
  split; [exact (Hkeeps Hin) | exact (Hother Hout)].
Defined.

(** C8: for a Divider, Spinner, Copyable, Heading, Text or Button and every
    seed state, the reducer returns the seed. *)
Theorem constructState_no_state_effect (state : ComponentState) :
  constructState state Divider = state
  ∧ constructState state Spinner = state
  ∧ (forall value, constructState state (Copyable value) = state)
  ∧ (forall value, constructState state (Heading value) = state)
  ∧ (forall value, constructState state (Text value) = state)
  ∧ (forall b, constructState state (ButtonNode b) = state).
Proof. by repeat split. Qed.

(** * Properties of validation *)

(** Induction over structs with the members of a union and the fields of
    an object struct covered. *)
Lemma Struct_induction (P : Struct -> Prop) :
  P string_ ->
  P unknown ->
  (forall constant, P (literal constant)) ->
  (forall T, P T -> P (optional T)) ->
  (forall Structs, Forall P Structs -> P (union_ Structs)) ->
  (forall Element, P Element -> P (array Element)) ->
  (forall schema, Forall (fun kT => P (snd kT)) schema -> P (object schema)) ->
  P lazy_ ->
  forall T, P T.
Proof.
  intros Hs Hu Hl Ho Hun Ha Hob Hz.
  fix IH 1. intros [ | |c|T|Ts|E|sch| ].
  - apply Hs.
  - apply Hu.
  - apply Hl.
  - apply Ho, IH.
  - apply Hun. induction Ts as [|T Ts IHTs]; constructor; [apply IH | exact IHTs].
  - apply Ha, IH.
  - apply Hob. induction sch as [|[k T] sch IHsch]; constructor;
      [apply IH | exact IHsch].
  - apply Hz.
Qed.

Lemma depth_element (e : json) (elements : list json) :
  In e elements -> depth e < depth (JArray elements).
Proof.
  intros Hin. cbn [depth]. apply Nat.lt_succ_r.
  induction elements as [|x xs IH]; [destruct Hin|].
  change (depth e <= Nat.max (depth x) (list_max (map depth xs))).
  destruct Hin as [->|Hin]; [lia|]. specialize (IH Hin). lia.
Qed.

Lemma depth_get (k : string) (fields : list (string * json)) :
  depth (get k fields) < depth (JObject fields).
Proof.
  cbn [depth]. apply Nat.lt_succ_r.
  induction fields as [|[k' x] fs IH]; [cbn; lia|].
  change (depth (if String.eqb k k' then x else get k fs)
          <= Nat.max (depth x)
               (list_max (map (fun kv => depth (snd kv)) fs))).
  destruct (String.eqb k k'); lia.
Qed.

Lemma forallb_ext_In {A : Type} (f g : A -> bool) (l : list A) :
  (forall x, In x l -> f x = g x) -> forallb f l = forallb g l.
Proof.
  induction l as [|x l IH]; intros Hfg; [reflexivity|].
  cbn. rewrite (Hfg x (or_introl eq_refl)), IH; [reflexivity|].
  intros y Hy. apply Hfg. by right.
Qed.

(** Running a struct on [v] consults [self] only at values no deeper than
    [v]. *)
Lemma run_ext (self1 self2 : json -> bool) (T : Struct) :
  forall v,
    (forall u, depth u <= depth v -> self1 u = self2 u) ->
    run self1 T v = run self2 T v.
Proof.
  induction T as [ | |c|T IH|Ts IH|E IH|sch IH| ] using Struct_induction;
    intros v Hself; try reflexivity.
  - destruct v; cbn; try reflexivity; apply IH, Hself.
  - cbn. induction IH as [|T Ts HT _ IHTs]; [reflexivity|].
    cbn. by rewrite (HT v Hself), IHTs.
  - destruct v as [ | | | | |els| ]; try reflexivity. cbn.
    apply forallb_ext_In. intros e He. apply IH. intros u Hu. apply Hself.
    pose proof (depth_element e els He). lia.
  - destruct v as [ | | | | | |fs]; try reflexivity. cbn. f_equal.
    induction IH as [|[k T] sch HT _ IHsch]; [reflexivity|].
    cbn [forallb fst snd]. rewrite IHsch. f_equal.
    apply HT. intros u Hu. apply Hself.
    pose proof (depth_get k fs). cbn [snd] in Hu. lia.
  - cbn. apply Hself. lia.
Qed.

(** A guarded struct consults [self] only at strictly smaller depth. *)
Lemma run_guarded_ext (self1 self2 : json -> bool) (T : Struct) :
  guarded T = true ->
  forall v,
    (forall u, depth u < depth v -> self1 u = self2 u) ->
    run self1 T v = run self2 T v.
Proof.
  induction T as [ | |c|T IH|Ts IH|E _|sch _| ] using Struct_induction;
    intros Hg v Hself; try reflexivity.
  - destruct v; cbn; try reflexivity; by apply IH.
  - cbn in Hg |- *. induction IH as [|T Ts HT _ IHTs]; [reflexivity|].
    cbn in Hg. apply andb_true_iff in Hg as [HgT HgTs].
    cbn. by rewrite (HT HgT v Hself), IHTs.
  - destruct v as [ | | | | |els| ]; try reflexivity. cbn.
    apply forallb_ext_In.
    intros e He. apply run_ext. intros u Hu. apply Hself.
    pose proof (depth_element e els He). lia.
  - destruct v as [ | | | | | |fs]; try reflexivity. cbn. f_equal.
    apply forallb_ext_In.
    intros [k T] _. cbn [fst snd]. apply run_ext. intros u Hu. apply Hself.
    pose proof (depth_get k fs). lia.
  - discriminate Hg.
Qed.

(** ** Enough fuel *)

Lemma validate_fuel_ComponentStruct_stable (n : nat) :
  forall m v, depth v < n -> depth v < m ->
    validate_fuel n ComponentStruct v = validate_fuel m ComponentStruct v.
Proof.
  induction n as [|n IH]; intros m v Hn Hm; [lia|].
  destruct m as [|m]; [lia|]. cbn [validate_fuel].
  apply run_guarded_ext; [reflexivity|].
  intros u Hu. apply IH; lia.
Qed.

(** On a guarded struct every amount of fuel above the depth of the value
    gives the result of [is_valid]: a rejection is never a lack of fuel. *)
Lemma validate_fuel_enough (T : Struct) (v : json) (n : nat) :
  guarded T = true -> depth v < n -> validate_fuel n T v = is_valid T v.
Proof.
  intros Hg Hn. unfold is_valid.
  destruct n as [|n]; [lia|]. cbn [validate_fuel].
  apply run_guarded_ext; [exact Hg|].
  intros u Hu. apply validate_fuel_ComponentStruct_stable; lia.
Qed.

(** The equation of validation: the lazy reference is validation against
    [ComponentStruct] itself. *)
Lemma is_valid_unfold (T : Struct) (v : json) :
  guarded T = true -> is_valid T v = run (is_valid ComponentStruct) T v.
Proof.
  intros Hg. unfold is_valid at 1. cbn [validate_fuel].
  apply run_guarded_ext; [exact Hg|].
  intros u Hu. apply validate_fuel_enough; [reflexivity | lia].
Qed.

(** ** Object structs *)

Section Run.
Variable self : json -> bool.

Lemma run_literal (constant : string) (v : json) :
  run self (literal constant) v = true -> v = JString constant.
Proof.
  destruct v; cbn; try discriminate.
  intros H. apply String.eqb_eq in H. by subst.
Qed.

Lemma run_object_field schema (v : json) k T :
  run self (object schema) v = true -> In (k, T) schema ->
  exists fields, v = JObject fields ∧ run self T (get k fields) = true.
Proof.
  destruct v as [ | | | | | |fs]; cbn; try discriminate.
  intros H Hin. apply andb_true_iff in H as [H _].
  exists fs. split; [reflexivity|].
  rewrite forallb_forall in H. exact (H (k, T) Hin).
Qed.

Lemma run_object_declares schema fields k :
  run self (object schema) (JObject fields) = true ->
  In k (keys fields) -> declares k schema = true.
Proof.
  cbn. intros H Hin. apply andb_true_iff in H as [_ H].
  rewrite forallb_forall in H. unfold keys in Hin.
  apply in_map_iff in Hin as [[k' x] [<- Hin]]. exact (H (k', x) Hin).
Qed.

(** Each of the nine structs is an object struct that pins the tag. *)
Lemma kinds_object tag T :
  In (tag, T) kinds ->
  T = object (schema_of T) ∧ In ("type", literal tag) (schema_of T)
  ∧ guarded T = true.
Proof.
  cbn. intros H.
  repeat (destruct H as [H|H]; [inversion H; subst; clear H|]);
    [..|destruct H]; (split; [reflexivity|split; [left; reflexivity|reflexivity]]).
Qed.

Lemma run_array (Element : Struct) (v : json) :
  run self (array Element) v = true ->
  exists elements,
    v = JArray elements ∧ forall e, In e elements -> run self Element e = true.
Proof.
  destruct v as [ | | | | |els| ]; cbn; try discriminate.
  intros H. exists els. split; [reflexivity|]. by apply forallb_forall.
Qed.

Lemma kinds_tag tag T v :
  In (tag, T) kinds -> run self T v = true -> typeTag v = JString tag.
Proof.
  intros Hin Hrun. destruct (kinds_object tag T Hin) as (HT & Htype & _).
  rewrite HT in Hrun.
  destruct (run_object_field _ _ _ _ Hrun Htype) as (fs & -> & Hlit).
  cbn. by apply run_literal in Hlit.
Qed.

(** What [FormStruct] accepts is an object whose [children] is an array of
    values that [InputStruct] or [ButtonStruct] accepts. *)
Lemma run_FormStruct_children (v : json) :
  run self FormStruct v = true ->
  exists fields children,
    v = JObject fields ∧ get "children" fields = JArray children
    ∧ forall child, In child children ->
        run self InputStruct child = true ∨ run self ButtonStruct child = true.
Proof.
  intros Hrun.
  destruct (run_object_field (schema_of FormStruct) v "children"
              (array FormComponentStruct) Hrun) as (fs & -> & Harr).
  { right; left; reflexivity. }
  apply run_array in Harr as (children & Hget & Hall).
  exists fs, children. repeat split; [exact Hget|].
  intros child Hin. specialize (Hall child Hin).
  change (run self InputStruct child || (run self ButtonStruct child || false)
          = true) in Hall.
  rewrite orb_false_r in Hall. by apply orb_true_iff in Hall.
Qed.

End Run.

(** Two entries of [kinds] with one tag are one entry. *)
Lemma kinds_functional tag T T' :
  In (tag, T) kinds -> In (tag, T') kinds -> T = T'.
Proof.
  cbn. intros H H'.
  repeat (destruct H as [H|H]; [inversion H; subst; clear H|]);
    [..|destruct H];
    repeat (destruct H' as [H'|H']; [inversion H'; subst; clear H'|]);
    try reflexivity; try destruct H'.
Qed.

(** What the union accepts is what one of the nine structs accepts. *)
Lemma is_valid_ComponentStruct (v : json) :
  is_valid ComponentStruct v = true
  <-> exists tag T, In (tag, T) kinds ∧ is_valid T v = true.
Proof.
  rewrite is_valid_unfold by reflexivity.
  change ComponentStruct with (union_ (map snd kinds)).
  cbn [run]. rewrite existsb_exists. split.
  - intros (T & Hin & Hrun). apply in_map_iff in Hin as ([tag T'] & <- & Hin).
    exists tag, T'. split; [exact Hin|].
    rewrite is_valid_unfold; [exact Hrun|].
    by destruct (kinds_object _ _ Hin) as (_ & _ & ?).
  - intros (tag & T & Hin & Hval). exists T. split.
    + apply in_map_iff. by exists (tag, T).
    + rewrite is_valid_unfold in Hval; [exact Hval|].
      by destruct (kinds_object _ _ Hin) as (_ & _ & ?).
Qed.

(** Rejection of a form by its children: [FormStruct] accepts a value only when every entry of its
    [children] array is accepted by [InputStruct] or by [ButtonStruct]; a
    form with a child that neither accepts, for example any child whose tag
    is not [input] or [button] such as a panel, is rejected by [FormStruct]
    and by [ComponentStruct]. *)
Theorem FormStruct_children_restricted
    (fields : list (string * json)) (children : list json) :
  get "type" fields = JString NodeType.Form ->
  get "children" fields = JArray children ->
  (is_valid FormStruct (JObject fields) = true ->
   forall child, In child children ->
     is_valid InputStruct child = true ∨ is_valid ButtonStruct child = true)
  ∧ (forall child, In child children ->
       is_valid InputStruct child = false ->
       is_valid ButtonStruct child = false ->
       is_valid FormStruct (JObject fields) = false
       ∧ is_valid ComponentStruct (JObject fields) = false)
  ∧ (forall child, In child children ->
       typeTag child <> JString NodeType.Input ->
       typeTag child <> JString NodeType.Button ->
       is_valid FormStruct (JObject fields) = false
       ∧ is_valid ComponentStruct (JObject fields) = false).
Proof.
  intros Htype Hchildren.
  assert (Hform : is_valid FormStruct (JObject fields) = true ->
                  forall child, In child children ->
                    is_valid InputStruct child = true
                    ∨ is_valid ButtonStruct child = true).
  { intros Hval child Hin. rewrite is_valid_unfold in Hval by reflexivity.
    apply run_FormStruct_children in Hval as (fs & cs & Hfs & Hget & Hall).
    injection Hfs as <-. rewrite Hchildren in Hget. injection Hget as <-.
    rewrite !is_valid_unfold by reflexivity. by apply Hall. }
  assert (Hunion : is_valid ComponentStruct (JObject fields) = true ->
                   is_valid FormStruct (JObject fields) = true).
  { intros Hval. apply is_valid_ComponentStruct in Hval as (tag & T & Hin & HT).
    assert (Hg : guarded T = true)
      by (by destruct (kinds_object _ _ Hin) as (_ & _ & ?)).
    rewrite is_valid_unfold in HT by exact Hg.
    pose proof (kinds_tag _ _ _ _ Hin HT) as Htag. cbn in Htag.
    rewrite Htype in Htag. injection Htag as <-.
    assert (T = FormStruct) as ->; [|by rewrite is_valid_unfold].
    apply (kinds_functional NodeType.Form); [exact Hin|].
    cbn. do 8 right. by left. }
  assert (Hreject : forall child, In child children ->
            is_valid InputStruct child = false ->
            is_valid ButtonStruct child = false ->
            is_valid FormStruct (JObject fields) = false
            ∧ is_valid ComponentStruct (JObject fields) = false).
  { intros child Hin HI HB.
    assert (HF : is_valid FormStruct (JObject fields) = false).
    { destruct (is_valid FormStruct (JObject fields)) eqn:E; [|reflexivity].
      destruct (Hform eq_refl child Hin); congruence. }
    split; [exact HF|].
    destruct (is_valid ComponentStruct (JObject fields)) eqn:E; [|reflexivity].
    rewrite (Hunion eq_refl) in HF. discriminate. }
  split; [exact Hform|]. split; [exact Hreject|].
  intros child Hin HnI HnB. apply (Hreject child Hin).
  - destruct (is_valid InputStruct child) eqn:E; [|reflexivity].
    rewrite is_valid_unfold in E by reflexivity.
    exfalso. apply HnI. apply (kinds_tag _ NodeType.Input InputStruct _) in E; [exact E|].
    cbn. do 7 right. by left.
  - destruct (is_valid ButtonStruct child) eqn:E; [|reflexivity].
    rewrite is_valid_unfold in E by reflexivity.
    exfalso. apply HnB. apply (kinds_tag _ NodeType.Button ButtonStruct _) in E; [exact E|].
    cbn. do 6 right. by left.
Qed.

Lemma FormStruct_children_restricted_witness :
  get "type" [("type", JString "form"); ("name", JString "f");
              ("children",
               JArray [JObject [("type", JString "panel");
                                ("children", JArray [])]])]
  = JString NodeType.Form
  ∧ is_valid ComponentStruct
      (JObject [("type", JString "form"); ("name", JString "f");
                ("children",
                 JArray [JObject [("type", JString "panel");
                                  ("children", JArray [])]])])
    = false.
Proof.
  split; [reflexivity|].
  destruct (FormStruct_children_restricted
              [("type", JString "form"); ("name", JString "f");
               ("children",
                JArray [JObject [("type", JString "panel");
                                 ("children", JArray [])]])]
              [JObject [("type", JString "panel"); ("children", JArray [])]]
              eq_refl eq_refl) as [_ [_ Hreject]].
  apply (Hreject (JObject [("type", JString "panel"); ("children", JArray [])])).
  - left. reflexivity.
  - vm_compute. discriminate.
  - vm_compute. discriminate.
Defined.

(** C6: the union is closed over the nine tags: a raw value whose type tag
    is none of them is rejected, with whatever fuel. *)
Theorem ComponentStruct_closed (v : json) :
  (forall tag,
      In tag ["copyable"; "divider"; "heading"; "panel"; "spinner"; "text";
              "button"; "input"; "form"] ->
      typeTag v <> JString tag) ->
  is_valid ComponentStruct v = false
  ∧ forall n, validate_fuel n ComponentStruct v = false.
Proof.
  intros Htag.
  assert (Hall : forall n, validate_fuel n ComponentStruct v = false).
  { intros [|n]; [reflexivity|]. cbn [validate_fuel].
    destruct (run _ ComponentStruct v) eqn:E; [|reflexivity].
    change ComponentStruct with (union_ (map snd kinds)) in E.
    cbn [run] in E. apply existsb_exists in E as (T & Hin & Hrun).
    apply in_map_iff in Hin as ([tag T'] & <- & Hin).
    exfalso. apply (Htag tag).
    - change (In tag (map fst kinds)). apply in_map_iff. by exists (tag, T').
    - exact (kinds_tag _ _ _ _ Hin Hrun). }
  split; [apply Hall | exact Hall].
Qed.

Lemma ComponentStruct_closed_witness :
  is_valid ComponentStruct (JObject [("type", JString "bogus")]) = false.
Proof.
  apply (ComponentStruct_closed (JObject [("type", JString "bogus")])).
  intros tag Hin. vm_compute in Hin. vm_compute.
  intros Heq. injection Heq as <-.
  repeat (destruct Hin as [Hin|Hin]; [discriminate Hin|]). exact Hin.
Defined.

(** The contract of a divider: an object whose tag is [divider] and that
    has no other property. *)
Lemma DividerStruct_contract (v : json) :
  is_valid DividerStruct v = true
  <-> exists fields,
        v = JObject fields ∧ get "type" fields = JString NodeType.Divider
        ∧ forall k, In k (keys fields) -> k = "type".
Proof.
  rewrite is_valid_unfold by reflexivity. split.
  - intros Hrun.
    destruct (run_object_field _ (schema_of DividerStruct) v "type"
                (literal NodeType.Divider) Hrun) as (fs & -> & Hlit);
      [by left|].
    exists fs. split; [reflexivity|]. split; [by apply run_literal in Hlit|].
    intros k Hk.
    pose proof (run_object_declares _ (schema_of DividerStruct) fs k Hrun Hk)
      as Hd.
    cbn in Hd. rewrite orb_false_r in Hd. by apply String.eqb_eq in Hd.
  - intros (fs & -> & Htype & Hkeys).
    change (run (is_valid ComponentStruct) (literal NodeType.Divider)
              (get "type" fs) && true
            && forallb (fun kv => declares (fst kv) (schema_of DividerStruct)) fs
            = true).
    rewrite Htype. cbn [run]. rewrite String.eqb_refl. cbn [andb].
    apply forallb_forall. intros [k x] Hin.
    rewrite (Hkeys k); [reflexivity|].
    unfold keys. apply in_map_iff. by exists (k, x).
Qed.

(** Undeclared properties: the union accepts a value exactly when the struct of one of the
    nine kinds accepts it; a value whose tag names a kind and that carries a
    property outside the fields declared for that kind is rejected; a
    divider, for one, is accepted exactly when [type] is its only
    property. *)
Theorem ComponentStruct_field_contract
    (fields : list (string * json)) (tag : string) (T : Struct) (k : string) :
  In (tag, T) kinds ->
  get "type" fields = JString tag ->
  In k (keys fields) ->
  declares k (schema_of T) = false ->
  is_valid T (JObject fields) = false
  ∧ is_valid ComponentStruct (JObject fields) = false
  ∧ (forall v, is_valid ComponentStruct v = true
               <-> exists tag' T', In (tag', T') kinds ∧ is_valid T' v = true)
  ∧ (forall v, is_valid DividerStruct v = true
               <-> exists fields',
                     v = JObject fields'
                     ∧ get "type" fields' = JString NodeType.Divider
                     ∧ forall k', In k' (keys fields') -> k' = "type").
Proof.
  intros Hin Htype Hk Hdecl.
  destruct (kinds_object _ _ Hin) as (HT & _ & Hg).
  assert (HTfalse : is_valid T (JObject fields) = false).
  { destruct (is_valid T (JObject fields)) eqn:E; [|reflexivity].
    rewrite is_valid_unfold in E by exact Hg. rewrite HT in E.
    rewrite (run_object_declares _ _ _ _ E Hk) in Hdecl. discriminate. }
  split; [exact HTfalse|]. split.
  - destruct (is_valid ComponentStruct (JObject fields)) eqn:E; [|reflexivity].
    apply is_valid_ComponentStruct in E as (tag' & T' & Hin' & HT').
    assert (Hg' : guarded T' = true)
      by (by destruct (kinds_object _ _ Hin') as (_ & _ & ?)).
    pose proof HT' as Hrun. rewrite is_valid_unfold in Hrun by exact Hg'.
    pose proof (kinds_tag _ _ _ _ Hin' Hrun) as Htag. cbn in Htag.
    rewrite Htype in Htag. injection Htag as ->.
    rewrite (kinds_functional _ _ _ Hin Hin') in HTfalse. congruence.
  - split; [exact is_valid_ComponentStruct | exact DividerStruct_contract].
Qed.

Lemma ComponentStruct_field_contract_witness :
  is_valid ComponentStruct
    (JObject [("type", JString "divider"); ("value", JString "x")]) = false
  ∧ is_valid ComponentStruct
      (JObject [("type", JString "input"); ("name", JString "a");
                ("children", JArray [])]) = false.
Proof.
  split.
  - apply (ComponentStruct_field_contract
             [("type", JString "divider"); ("value", JString "x")]
             NodeType.Divider DividerStruct "value").
    + right; left; reflexivity.
    + reflexivity.
    + right; left; reflexivity.
    + reflexivity.
  - apply (ComponentStruct_field_contract
             [("type", JString "input"); ("name", JString "a");
              ("children", JArray [])]
             NodeType.Input InputStruct "children").
    + do 7 right; left; reflexivity.
    + reflexivity.
    + do 2 right; left; reflexivity.
    + reflexivity.
Defined.

(** ** Typed components and validation *)

Lemma is_valid_Input_raw (i : Input) : is_valid InputStruct (Input_raw i) = true.
Proof.
  destruct i as [[v|] n [[]|] [p|] [l|]]; reflexivity.
Qed.

Lemma is_valid_Button_raw (b : Button) :
  is_valid ButtonStruct (Button_raw b) = true.
Proof.
  destruct b as [v [[]|] [[]|] [n|]]; reflexivity.
Qed.

(** C2: an Input whose value is omitted is accepted by validation, as the
    raw object without a [value] property that it is, and the reducer stores
    the empty string at its name; a given value is stored as it is. *)
Theorem constructState_Input_value_default
    (state : ComponentState) (name : string) (inputType : option InputTypes)
    (placeholder label : option string) :
  constructState state
    (InputNode (mkInput None name inputType placeholder label)) !! name
  = Some (SVString "")
  ∧ (forall value,
        constructState state
          (InputNode (mkInput (Some value) name inputType placeholder label))
          !! name
        = Some (SVString value))
  ∧ (exists fields,
        raw (InputNode (mkInput None name inputType placeholder label))
        = JObject fields
        ∧ existsb (String.eqb "value") (keys fields) = false)
  ∧ is_valid InputStruct
      (raw (InputNode (mkInput None name inputType placeholder label))) = true
  ∧ is_valid ComponentStruct
      (raw (InputNode (mkInput None name inputType placeholder label))) = true.
Proof.
  split; [apply lookup_insert_eq|].
  split; [intros value; apply lookup_insert_eq|].
  split.
  - eexists. split; [reflexivity|].
    destruct inputType as [[]|], placeholder, label; reflexivity.
  - split; [apply is_valid_Input_raw|].
    apply is_valid_ComponentStruct. exists NodeType.Input, InputStruct.
    split; [|apply is_valid_Input_raw].
    cbn. do 7 right. by left.
Qed.

Lemma run_FormComponentStruct_raw (self : json -> bool) (c : Component) :
  run self FormComponentStruct (raw c) = isFormComponent c.
Proof.
  destruct c as [v| |v|cs| |v|b|i|n cs]; try reflexivity.
  - destruct b as [v [[]|] [[]|] [n|]]; reflexivity.
  - destruct i as [[v|] n [[]|] [p|] [l|]]; reflexivity.
Qed.

Lemma run_ComponentStruct_panel (self : json -> bool) (elements : list json) :
  run self ComponentStruct
    (JObject [("type", JString NodeType.Panel); ("children", JArray elements)])
  = forallb self elements.
Proof.
  cbn. rewrite orb_false_r, !andb_true_r. reflexivity.
Qed.

Lemma run_ComponentStruct_form
    (self : json -> bool) (elements : list json) (name : string) :
  run self ComponentStruct
    (JObject [("type", JString NodeType.Form); ("children", JArray elements);
              ("name", JString name)])
  = forallb (run self FormComponentStruct) elements.
Proof.
  cbn -[FormComponentStruct]. rewrite orb_false_r, !andb_true_r. reflexivity.
Qed.

(** Validation accepts the raw value of a component exactly when the
    component is well typed: the Forms below it have only Input and Button
    children. *)
Lemma is_valid_raw (c : Component) : is_valid ComponentStruct (raw c) = typed c.
Proof.
  induction c as [v| |v|cs IH| |v|b|i|n cs _] using Component_induction;
    try reflexivity.
  - rewrite is_valid_unfold by reflexivity.
    cbn [raw typed]. rewrite run_ComponentStruct_panel.
    induction IH as [|c cs Hc _ IHcs]; [reflexivity|].
    cbn [map forallb]. by rewrite Hc, IHcs.
  - destruct b as [v [[]|] [[]|] [n|]]; reflexivity.
  - destruct i as [[v|] n [[]|] [p|] [l|]]; reflexivity.
  - rewrite is_valid_unfold by reflexivity.
    cbn [raw typed]. rewrite run_ComponentStruct_form.
    induction cs as [|c cs IHcs]; [reflexivity|].
    cbn [map forallb]. by rewrite run_FormComponentStruct_raw, IHcs.
Qed.

(** ** The scenario of the specification *)

Example scenario_state :
  constructState ∅
    (Panel [Text "Hi";
            Form "f" [InputNode (mkInput (Some "x") "a" None None None);
                      ButtonNode (mkButton "Go" None None (Some "b"))]])
  = {["f" := SVState {["a" := SVString "x"]}]}.
Proof. reflexivity. Qed.

Example scenario_valid :
  is_valid ComponentStruct
    (JObject [("type", JString "panel");
              ("children",
               JArray [JObject [("type", JString "text"); ("value", JString "Hi")];
                       JObject [("type", JString "form"); ("name", JString "f");
                                ("children",
                                 JArray [JObject [("type", JString "input");
                                                  ("name", JString "a");
                                                  ("value", JString "x")];
                                         JObject [("type", JString "button");
                                                  ("name", JString "b");
                                                  ("value", JString "Go")]])]])])
  = true.
Proof. reflexivity. Qed.

Example nested_panel_in_form_rejected :
  is_valid ComponentStruct
    (JObject [("type", JString "panel");
              ("children",
               JArray [JObject [("type", JString "form"); ("name", JString "f");
                                ("children",
                                 JArray [JObject [("type", JString "panel");
                                                  ("children", JArray [])]])]])])
  = false.
Proof. reflexivity. Qed.

(** * Further properties of the state reducer *)

(** The reducer overlays what it derives on the seed. *)
Lemma fold_constructState_overlay (children : list Component) :
  Forall (fun c => forall seed : ComponentState,
             constructState seed c = constructState ∅ c ∪ seed) children ->
  forall seed : ComponentState,
    fold_left constructState children seed
    = fold_left constructState children ∅ ∪ seed.
Proof.
  induction 1 as [|c cs Hc _ IH]; intros seed; cbn [fold_left].
  - by rewrite (left_id_L ∅ (∪)).
  - rewrite (IH (constructState seed c)), (IH (constructState ∅ c)), (Hc seed).
    by rewrite (assoc_L (∪)).
Qed.

Lemma constructState_overlay (c : Component) :
  forall seed : ComponentState,
    constructState seed c = constructState ∅ c ∪ seed.
Proof.
  induction c as [v| |v|cs IH| |v|b|i|n cs _] using Component_induction;
    intros seed; try (cbn; by rewrite (left_id_L ∅ (∪))).
  - rewrite !constructState_Panel_fold. by apply fold_constructState_overlay.
  - cbn. by rewrite insert_empty, insert_union_singleton_l.
  - rewrite !constructState_Form_fold.
    by rewrite insert_empty, insert_union_singleton_l.
Qed.

Lemma fold_constructState_dom (children : list Component) :
  Forall (fun c => forall seed : ComponentState,
             dom (constructState seed c)
             = dom seed ∪ list_to_set (scopeNames c)) children ->
  forall seed : ComponentState,
    dom (fold_left constructState children seed)
    = dom seed ∪ list_to_set (flat_map scopeNames children).
Proof.
  induction 1 as [|c cs Hc _ IH]; intros seed; cbn [fold_left flat_map].
  - cbn. set_solver.
  - rewrite IH, Hc, list_to_set_app_L. set_solver.
Qed.

Lemma constructState_dom (c : Component) :
  forall seed : ComponentState,
    dom (constructState seed c) = dom seed ∪ list_to_set (scopeNames c).
Proof.
  induction c as [v| |v|cs IH| |v|b|i|n cs _] using Component_induction;
    intros seed.
  4: { rewrite constructState_Panel_fold. by apply fold_constructState_dom. }
  7: { cbn. rewrite dom_insert_L. set_solver. }
  7: { rewrite constructState_Form_fold, dom_insert_L. cbn. set_solver. }
  all: cbn; set_solver.
Qed.

(** X1: the result of the reducer is the state derived from the empty seed
    laid over the seed: what a component contributes does not depend on the
    seed, and the seed shows through wherever the component sets nothing. *)
Theorem constructState_seed_overlay
    (seed : ComponentState) (component : Component) :
  constructState seed component = constructState ∅ component ∪ seed.
Proof. apply constructState_overlay. Qed.

(** X2: deriving again from the same component with the result as the seed
    changes nothing. *)
Theorem constructState_idempotent
    (seed : ComponentState) (component : Component) :
  constructState (constructState seed component) component
  = constructState seed component.
Proof.
  rewrite (constructState_overlay component (constructState seed component)).
  rewrite (constructState_overlay component seed).
  by rewrite (assoc_L (∪)), (idemp_L (∪)).
Qed.

(** X3: the keys of the result are the keys of the seed and the names of
    the Inputs and Forms in the accumulator's scope, no others; the name of
    an Input inside a Form is not among them unless it is named outside. *)
Theorem constructState_keys (seed : ComponentState) (component : Component) :
  dom (constructState seed component)
  = dom seed ∪ list_to_set (scopeNames component).
Proof. apply constructState_dom. Qed.

(** X4: two components that name no common key can be derived in either
    order. *)
Theorem constructState_commutes
    (seed : ComponentState) (c1 c2 : Component) :
  (forall k, k ∈ scopeNames c1 -> k ∉ scopeNames c2) ->
  constructState (constructState seed c1) c2
  = constructState (constructState seed c2) c1
  ∧ constructState seed (Panel [c1; c2]) = constructState seed (Panel [c2; c1]).
Proof.
  intros Hdisj.
  assert (Heq : constructState (constructState seed c1) c2
                = constructState (constructState seed c2) c1).
  { rewrite (constructState_overlay c2 (constructState seed c1)).
    rewrite (constructState_overlay c1 (constructState seed c2)).
    rewrite (constructState_overlay c1 seed), (constructState_overlay c2 seed).
    rewrite !(assoc_L (∪)). f_equal. apply map_union_comm.
    apply map_disjoint_dom. rewrite !constructState_dom, dom_empty_L.
    set_solver. }
  split; [exact Heq|]. exact Heq.
Qed.

Lemma constructState_commutes_witness :
  constructState ∅
    (Panel [InputNode (mkInput (Some "x") "a" None None None);
            Form "f" [InputNode (mkInput None "a" None None None)]])
  = constructState ∅
      (Panel [Form "f" [InputNode (mkInput None "a" None None None)];
              InputNode (mkInput (Some "x") "a" None None None)]).
Proof.
  apply (constructState_commutes ∅
           (InputNode (mkInput (Some "x") "a" None None None))
           (Form "f" [InputNode (mkInput None "a" None None None)])).
  intros k Hk. cbn [scopeNames input_name] in Hk.
  apply list_elem_of_singleton in Hk as ->.
  apply (bool_decide_unpack _). vm_compute. exact I.
Defined.

(** X5: a Panel adds nothing of its own: a Panel among the children of a
    Panel derives the state that its children derive in its place, a Panel
    of one child derives what the child derives, and a Panel without
    children returns the seed. *)
Theorem constructState_Panel_flatten
    (seed : ComponentState) (before inner after : list Component) :
  constructState seed (Panel (before ++ Panel inner :: after))
  = constructState seed (Panel (before ++ inner ++ after))
  ∧ (forall c, constructState seed (Panel [c]) = constructState seed c)
  ∧ constructState seed (Panel []) = seed.
Proof.
  split; [|by split].
  rewrite !constructState_Panel_fold, !fold_left_app. cbn [fold_left].
  by rewrite constructState_Panel_fold.
Qed.

Lemma fold_formComponents_stringsOnly (children : list Component) :
  forallb isFormComponent children = true ->
  forall acc : ComponentState,
    stringsOnly acc -> stringsOnly (fold_left constructState children acc).
Proof.
  induction children as [|c cs IH]; intros Hty acc Hacc; [exact Hacc|].
  cbn in Hty. apply andb_true_iff in Hty as [Hc Hcs].
  cbn [fold_left]. apply (IH Hcs).
  destruct c; try discriminate Hc; cbn; [exact Hacc|].
  by apply map_Forall_insert_2.
Qed.

Lemma fold_constructState_serializable (children : list Component) :
  Forall (fun c => forall seed : ComponentState,
                     typed c = true ->
                     serializable seed -> serializable (constructState seed c))
    children ->
  forallb typed children = true ->
  forall seed : ComponentState,
    serializable seed -> serializable (fold_left constructState children seed).
Proof.
  induction 1 as [|c cs Hc _ IH]; intros Hty seed Hseed; [exact Hseed|].
  cbn in Hty. apply andb_true_iff in Hty as [Htc Htcs].
  cbn [fold_left]. apply (IH Htcs). by apply Hc.
Qed.

(** X6: for a well-typed component, a seed that holds only strings and
    mappings of strings gives a result that holds only strings and mappings
    of strings: the state never nests deeper than one Form. *)
Theorem constructState_serializable
    (seed : ComponentState) (component : Component) :
  typed component = true ->
  serializable seed ->
  serializable (constructState seed component).
Proof.
  revert seed.
  induction component as [v| |v|cs IH| |v|b|i|n cs _] using Component_induction;
    intros seed Hty Hseed; try exact Hseed.
  - rewrite constructState_Panel_fold.
    by apply fold_constructState_serializable.
  - cbn. by apply map_Forall_insert_2.
  - rewrite constructState_Form_fold. apply map_Forall_insert_2; [|exact Hseed].
    apply fold_formComponents_stringsOnly; [exact Hty|].
    apply map_Forall_empty.
Qed.

Lemma constructState_serializable_witness :
  serializable
    (constructState ∅
       (Panel [Text "Hi";
               Form "f" [InputNode (mkInput (Some "x") "a" None None None);
                         ButtonNode (mkButton "Go" None None (Some "b"))]])).
Proof.
  apply constructState_serializable; [reflexivity|].
  apply map_Forall_empty.
Defined.

(** X7: after a Panel, the value at a key is the one left by the last child
    that names it: a child's effect on a key that no later sibling names is
    still there at the end, and so the value of an Input is found at its
    name unless a later sibling takes the name. *)
Theorem constructState_Panel_last_named
    (seed : ComponentState) (before after : list Component) (k : string) :
  k ∉ flat_map scopeNames after ->
  (forall c,
      constructState seed (Panel (before ++ c :: after)) !! k
      = constructState (constructState seed (Panel before)) c !! k)
  ∧ (forall value inputType placeholder label,
        constructState seed
          (Panel (before
                  ++ InputNode (mkInput value k inputType placeholder label)
                     :: after)) !! k
        = Some (SVString (default "" value))).
Proof.
  intros Hafter.
  assert (Hgen : forall c,
             constructState seed (Panel (before ++ c :: after)) !! k
             = constructState (constructState seed (Panel before)) c !! k).
  { intros c. rewrite !constructState_Panel_fold, fold_left_app.
    cbn [fold_left]. apply fold_constructState_other; [|exact Hafter].
    apply Forall_forall. intros c' _. apply constructState_other. }
  split; [exact Hgen|].
  intros value inputType placeholder label. rewrite Hgen. cbn.
  apply lookup_insert_eq.
Qed.

Lemma constructState_Panel_last_named_witness :
  constructState ∅
    (Panel ([InputNode (mkInput (Some "old") "a" None None None)]
            ++ InputNode (mkInput (Some "new") "a" None None None)
               :: [Text "t"; Form "f" [InputNode (mkInput None "a" None None None)]]))
    !! "a"
  = Some (SVString "new").
Proof.
  apply (constructState_Panel_last_named ∅
           [InputNode (mkInput (Some "old") "a" None None None)]
           [Text "t"; Form "f" [InputNode (mkInput None "a" None None None)]]
           "a").
  apply (bool_decide_unpack _). vm_compute. exact I.
Defined.

Lemma fold_formComponents_lookup (children : list Component) (k : string) :
  forallb isFormComponent children = true ->
  forall acc : ComponentState,
    fold_left constructState children acc !! k
    = match inputValue k children with
      | Some v => Some (SVString v)
      | None => acc !! k
      end.
Proof.
  induction children as [|c cs IH]; intros Hty acc; [reflexivity|].
  cbn in Hty. apply andb_true_iff in Hty as [Hc Hcs].
  cbn [fold_left inputValue]. rewrite (IH Hcs).
  destruct (inputValue k cs) as [v|]; [reflexivity|].
  destruct c as [v| |v|cs'| |v|b|i|n cs']; try discriminate Hc; [reflexivity|].
  cbn. destruct (String.eqb (input_name i) k) eqn:E.
  - apply String.eqb_eq in E as <-. apply lookup_insert_eq.
  - apply String.eqb_neq in E. by apply lookup_insert_ne.
Qed.

(** X8: the state of a Form, whose children are Inputs and Buttons, holds
    at each key the value of the last Input child of that name, the empty
    string when that Input has no value, and holds nothing at a key that no
    Input child has. *)
Theorem constructState_Form_lookup
    (seed : ComponentState) (name : string) (children : list Component)
    (k : string) :
  forallb isFormComponent children = true ->
  exists nested : ComponentState,
    constructState seed (Form name children) !! name = Some (SVState nested)
    ∧ nested !! k = SVString <$> inputValue k children.
Proof.
  intros Hty. exists (fold_left constructState children ∅). split.
  - rewrite constructState_Form_fold. apply lookup_insert_eq.
  - rewrite (fold_formComponents_lookup _ _ Hty).
    by destruct (inputValue k children).
Qed.

Lemma constructState_Form_lookup_witness :
  exists nested : ComponentState,
    constructState ∅
      (Form "f" [InputNode (mkInput (Some "x") "a" None None None);
                 ButtonNode (mkButton "Go" None None (Some "a"));
                 InputNode (mkInput None "a" None None None)]) !! "f"
    = Some (SVState nested)
    ∧ nested !! "a" = Some (SVString "").
Proof.
  apply (constructState_Form_lookup ∅ "f"
           [InputNode (mkInput (Some "x") "a" None None None);
            ButtonNode (mkButton "Go" None None (Some "a"));
            InputNode (mkInput None "a" None None None)] "a").
  reflexivity.
Defined.

(** X9: a component with no Input and no Form in scope, however its
    Panels nest, returns the seed. *)
Theorem constructState_nothing_named
    (seed : ComponentState) (component : Component) :
  scopeNames component = [] -> constructState seed component = seed.
Proof.
  intros Hnone. rewrite constructState_overlay.
  assert (Hempty : constructState ∅ component = ∅).
  { apply dom_empty_iff_L. rewrite constructState_dom, Hnone. set_solver. }
  by rewrite Hempty, (left_id_L ∅ (∪)).
Qed.

Lemma constructState_nothing_named_witness :
  constructState {["a" := SVString "x"]}
    (Panel [Text "t";
            Panel [Divider; ButtonNode (mkButton "Go" None None (Some "a"))];
            Panel []])
  = {["a" := SVString "x"]}.
Proof.
  apply (constructState_nothing_named {["a" := SVString "x"]}).
  reflexivity.
Defined.

(** * Further properties of validation *)

Lemma run_string_ (self : json -> bool) (v : json) :
  run self string_ v = true -> exists s, v = JString s.
Proof. destruct v; cbn; try discriminate. by eexists. Qed.

(** A property that reads as an array is a property of the object. *)
Lemma get_JArray_key (k : string) (fields : list (string * json)) elements :
  get k fields = JArray elements -> In k (keys fields).
Proof.
  induction fields as [|[k' x] fs IH]; cbn; [discriminate|].
  destruct (String.eqb k k') eqn:E.
  - apply String.eqb_eq in E. by left.
  - intros H. right. by apply IH.
Qed.

Lemma kinds_valid tag T v :
  In (tag, T) kinds -> is_valid T v = true -> is_valid ComponentStruct v = true.
Proof.
  intros Hin Hval. apply is_valid_ComponentStruct. by exists tag, T.
Qed.

(** What validation of a component object found: the struct of its tag
    accepts it, with whatever decides the lazy reference. *)
Lemma is_valid_ComponentStruct_tag fields tag T :
  In (tag, T) kinds ->
  get "type" fields = JString tag ->
  is_valid ComponentStruct (JObject fields) = true ->
  run (is_valid ComponentStruct) T (JObject fields) = true.
Proof.
  intros Hin Htype Hval.
  apply is_valid_ComponentStruct in Hval as (tag' & T' & Hin' & HT').
  assert (Hg' : guarded T' = true)
    by (by destruct (kinds_object _ _ Hin') as (_ & _ & ?)).
  rewrite is_valid_unfold in HT' by exact Hg'.
  pose proof (kinds_tag _ _ _ _ Hin' HT') as Htag. cbn in Htag.
  rewrite Htype in Htag. injection Htag as ->.
  by rewrite (kinds_functional _ _ _ Hin Hin').
Qed.

(** X10: the nine kinds exclude each other: a raw value is accepted by the
    struct of at most one kind. *)
Theorem kinds_exclusive (v : json) (tag tag' : string) (T T' : Struct) :
  In (tag, T) kinds -> In (tag', T') kinds ->
  is_valid T v = true -> is_valid T' v = true ->
  tag = tag' ∧ T = T'.
Proof.
  intros Hin Hin' HT HT'.
  assert (Hg : guarded T = true)
    by (by destruct (kinds_object _ _ Hin) as (_ & _ & ?)).
  assert (Hg' : guarded T' = true)
    by (by destruct (kinds_object _ _ Hin') as (_ & _ & ?)).
  rewrite is_valid_unfold in HT by exact Hg.
  rewrite is_valid_unfold in HT' by exact Hg'.
  pose proof (kinds_tag _ _ _ _ Hin HT) as Htag.
  pose proof (kinds_tag _ _ _ _ Hin' HT') as Htag'.
  rewrite Htag in Htag'. injection Htag' as <-.
  split; [reflexivity|]. exact (kinds_functional _ _ _ Hin Hin').
Qed.

Lemma kinds_exclusive_witness :
  NodeType.Text = NodeType.Text ∧ TextStruct = TextStruct.
Proof.
  apply (kinds_exclusive
           (JObject [("type", JString "text"); ("value", JString "Hi")])
           NodeType.Text NodeType.Text TextStruct TextStruct).
  - do 5 right; left; reflexivity.
  - do 5 right; left; reflexivity.
  - reflexivity.
  - reflexivity.
Defined.

(** X11: validation accepts the raw value of a component exactly when the
    component is well typed, that is when every Form below it, at whatever
    depth of Panels, has only Input and Button children. *)
Theorem ComponentStruct_accepts_typed (component : Component) :
  is_valid ComponentStruct (raw component) = typed component.
Proof. apply is_valid_raw. Qed.

Lemma is_valid_children
    (fields : list (string * json)) (children : list json) (child : json) :
  is_valid ComponentStruct (JObject fields) = true ->
  get "children" fields = JArray children ->
  In child children ->
  is_valid ComponentStruct child = true.
Proof.
  intros Hval Hchildren Hchild.
  pose proof Hval as Hval'.
  apply is_valid_ComponentStruct in Hval' as (tag & T & Hin & HT).
  assert (Hg : guarded T = true)
    by (by destruct (kinds_object _ _ Hin) as (_ & _ & ?)).
  rewrite is_valid_unfold in HT by exact Hg.
  pose proof (get_JArray_key _ _ _ Hchildren) as Hkey.
  assert (Hdecl : declares "children" (schema_of T) = true).
  { destruct (kinds_object _ _ Hin) as (HTobj & _ & _). rewrite HTobj in HT.
    exact (run_object_declares _ _ _ _ HT Hkey). }
  cbn in Hin.
  repeat (destruct Hin as [Hin|Hin]; [inversion Hin; subst; clear Hin|]);
    try discriminate Hdecl; try contradiction.
  - destruct (run_object_field _ (schema_of PanelStruct) _ "children"
                (array lazy_) HT) as (fs & Hfs & Harr);
      [right; left; reflexivity|].
    injection Hfs as <-. rewrite Hchildren in Harr.
    apply run_array in Harr as (els & Hels & Hall). injection Hels as <-.
    exact (Hall child Hchild).
  - apply run_FormStruct_children in HT as (fs & cs & Hfs & Hget & Hall).
    injection Hfs as <-. rewrite Hchildren in Hget. injection Hget as <-.
    destruct (Hall child Hchild) as [HI|HB].
    + apply (kinds_valid NodeType.Input InputStruct);
        [do 7 right; left; reflexivity | by rewrite is_valid_unfold].
    + apply (kinds_valid NodeType.Button ButtonStruct);
        [do 6 right; left; reflexivity | by rewrite is_valid_unfold].
Qed.

(** X12: every entry of the [children] of an accepted component is itself
    an accepted component. *)
Theorem ComponentStruct_children_valid
    (fields : list (string * json)) (children : list json) (child : json) :
  is_valid ComponentStruct (JObject fields) = true ->
  get "children" fields = JArray children ->
  In child children ->
  is_valid ComponentStruct child = true.
Proof. apply is_valid_children. Qed.

Lemma ComponentStruct_children_valid_witness :
  is_valid ComponentStruct
    (JObject [("type", JString "button"); ("value", JString "Go")]) = true.
Proof.
  apply (ComponentStruct_children_valid
           [("type", JString "form"); ("name", JString "f");
            ("children",
             JArray [JObject [("type", JString "button");
                              ("value", JString "Go")]])]
           [JObject [("type", JString "button"); ("value", JString "Go")]]).
  - reflexivity.
  - reflexivity.
  - left. reflexivity.
Defined.

Ltac in_list := cbn; repeat (first [left; reflexivity | right]).

Lemma run_object_intro (self : json -> bool) schema fields :
  (forall k T, In (k, T) schema -> run self T (get k fields) = true) ->
  (forall k, In k (keys fields) -> declares k schema = true) ->
  run self (object schema) (JObject fields) = true.
Proof.
  intros Hfields Hkeys. cbn [run]. apply andb_true_iff. split.
  - apply forallb_forall. intros [k T] Hin. by apply Hfields.
  - apply forallb_forall. intros [k x] Hin. apply Hkeys.
    unfold keys. apply in_map_iff. by exists (k, x).
Qed.

Lemma run_optional_literals (self : json -> bool) (l : list string) (v : json) :
  run self (optional (union_ (map literal l))) v = true ->
  v = JUndefined ∨ exists c, In c l ∧ v = JString c.
Proof.
  intros Hrun.
  assert (Hunion : run self (union_ (map literal l)) v = true ->
                   exists c, In c l ∧ v = JString c).
  { cbn [run]. intros H. apply existsb_exists in H as (T & Hin & HT).
    apply in_map_iff in Hin as (c & <- & Hc). exists c. split; [exact Hc|].
    by apply run_literal in HT. }
  destruct v; [by left|..]; right; by apply Hunion.
Qed.

(** X13: an accepted component has the fields that its kind requires: an
    input and a form have a string [name]; a copyable, a heading, a text and
    a button have a string [value]; a panel and a form have a [children]
    array. *)
Theorem ComponentStruct_required_fields
    (fields : list (string * json)) (tag : string) :
  is_valid ComponentStruct (JObject fields) = true ->
  get "type" fields = JString tag ->
  (In tag [NodeType.Input; NodeType.Form] ->
   exists s, get "name" fields = JString s)
  ∧ (In tag [NodeType.Copyable; NodeType.Heading; NodeType.Text;
             NodeType.Button] ->
     exists s, get "value" fields = JString s)
  ∧ (In tag [NodeType.Panel; NodeType.Form] ->
     exists children, get "children" fields = JArray children).
Proof.
  intros Hval Htype.
  assert (Hfield : forall T k F,
             In (tag, T) kinds -> In (k, F) (schema_of T) ->
             run (is_valid ComponentStruct) F (get k fields) = true).
  { intros T k F Hin Hk.
    pose proof (is_valid_ComponentStruct_tag _ _ _ Hin Htype Hval) as Hrun.
    destruct (kinds_object _ _ Hin) as (HT & _ & _). rewrite HT in Hrun.
    destruct (run_object_field _ _ _ _ _ Hrun Hk) as (fs & Hfs & HF).
    by injection Hfs as <-. }
  repeat split.
  - intros [<-|[<-|[]]]; apply (run_string_ (is_valid ComponentStruct)).
    + apply (Hfield InputStruct "name" string_); in_list.
    + apply (Hfield FormStruct "name" string_); in_list.
  - intros [<-|[<-|[<-|[<-|[]]]]]; apply (run_string_ (is_valid ComponentStruct)).
    + apply (Hfield CopyableStruct "value" string_); in_list.
    + apply (Hfield HeadingStruct "value" string_); in_list.
    + apply (Hfield TextStruct "value" string_); in_list.
    + apply (Hfield ButtonStruct "value" string_); in_list.
  - intros [<-|[<-|[]]].
    + destruct (run_array (is_valid ComponentStruct) lazy_
                  (get "children" fields)) as (cs & Hcs & _); [|by exists cs].
      apply (Hfield PanelStruct "children" (array lazy_)); in_list.
    + destruct (run_array (is_valid ComponentStruct) FormComponentStruct
                  (get "children" fields)) as (cs & Hcs & _); [|by exists cs].
      apply (Hfield FormStruct "children" (array FormComponentStruct)); in_list.
Qed.

Lemma ComponentStruct_required_fields_witness :
  exists s,
    get "name" [("type", JString "input"); ("name", JString "a")] = JString s.
Proof.
  destruct (ComponentStruct_required_fields
              [("type", JString "input"); ("name", JString "a")]
              NodeType.Input eq_refl eq_refl) as [Hname _].
  apply Hname. left. reflexivity.
Defined.

(** X14: the optional enumerated fields of an accepted input and of an
    accepted button are absent or one of the enumerated values: [inputType]
    one of the four input types, [variant] one of the two variants,
    [buttonType] one of the two button types. *)
Theorem optional_enum_fields (fields : list (string * json)) :
  (is_valid InputStruct (JObject fields) = true ->
   get "inputType" fields = JUndefined
   ∨ exists t, get "inputType" fields = JString (InputTypes_value t))
  ∧ (is_valid ButtonStruct (JObject fields) = true ->
     (get "variant" fields = JUndefined
      ∨ exists x, get "variant" fields = JString (ButtonVariants_value x))
     ∧ (get "buttonType" fields = JUndefined
        ∨ exists x, get "buttonType" fields = JString (ButtonTypes_value x))).
Proof.
  split.
  - intros Hval. rewrite is_valid_unfold in Hval by reflexivity.
    destruct (run_object_field _ (schema_of InputStruct) _ "inputType"
                (optional (union_ (map literal
                   (map InputTypes_value
                      [InputTypes_Text; InputTypes_Password;
                       InputTypes_Number; InputTypes_Search])))) Hval)
      as (fs & Hfs & Hrun); [in_list|].
    injection Hfs as <-.
    apply run_optional_literals in Hrun as [Hu|(c & Hc & Heq)]; [by left|].
    right. apply in_map_iff in Hc as (t & <- & _). by exists t.
  - intros Hval. rewrite is_valid_unfold in Hval by reflexivity. split.
    + destruct (run_object_field _ (schema_of ButtonStruct) _ "variant"
                  (optional (union_ (map literal
                     (map ButtonVariants_value [Primary; Secondary])))) Hval)
        as (fs & Hfs & Hrun); [in_list|].
      injection Hfs as <-.
      apply run_optional_literals in Hrun as [Hu|(c & Hc & Heq)]; [by left|].
      right. apply in_map_iff in Hc as (t & <- & _). by exists t.
    + destruct (run_object_field _ (schema_of ButtonStruct) _ "buttonType"
                  (optional (union_ (map literal
                     (map ButtonTypes_value
                        [ButtonTypes_Button; ButtonTypes_Submit])))) Hval)
        as (fs & Hfs & Hrun); [in_list|].
      injection Hfs as <-.
      apply run_optional_literals in Hrun as [Hu|(c & Hc & Heq)]; [by left|].
      right. apply in_map_iff in Hc as (t & <- & _). by exists t.
Qed.

Lemma optional_enum_fields_witness :
  get "inputType" [("type", JString "input"); ("name", JString "a");
                   ("inputType", JString "password")] = JUndefined
  ∨ exists t,
      get "inputType" [("type", JString "input"); ("name", JString "a");
                       ("inputType", JString "password")]
      = JString (InputTypes_value t).
Proof.
  destruct (optional_enum_fields
              [("type", JString "input"); ("name", JString "a");
               ("inputType", JString "password")]) as [Hinput _].
  apply Hinput. reflexivity.
Defined.

(** X15: a panel object, with no property besides [type] and [children],
    is accepted exactly when every entry of [children] is an accepted
    component; so panels nest to any depth, and a panel without children is
    accepted. *)
Theorem Panel_valid_iff_children_valid
    (fields : list (string * json)) (children : list json) :
  get "type" fields = JString NodeType.Panel ->
  get "children" fields = JArray children ->
  (forall k, In k (keys fields) -> k = "type" ∨ k = "children") ->
  is_valid ComponentStruct (JObject fields)
  = forallb (is_valid ComponentStruct) children.
Proof.
  intros Htype Hchildren Hkeys. apply Bool.eq_iff_eq_true. split.
  - intros Hval. apply forallb_forall. intros child Hin.
    exact (is_valid_children _ _ _ Hval Hchildren Hin).
  - intros Hall. apply (kinds_valid NodeType.Panel PanelStruct); [in_list|].
    rewrite is_valid_unfold by reflexivity.
    change PanelStruct with (object (schema_of PanelStruct)).
    apply run_object_intro.
    + intros k T [H|[H|[]]]; inversion H; subst; clear H.
      * rewrite Htype. reflexivity.
      * rewrite Hchildren. exact Hall.
    + intros k Hk. by destruct (Hkeys k Hk) as [->| ->].
Qed.

Lemma Panel_valid_iff_children_valid_witness :
  is_valid ComponentStruct
    (JObject [("children", JArray [JObject [("type", JString "spinner")]]);
              ("type", JString "panel")])
  = forallb (is_valid ComponentStruct) [JObject [("type", JString "spinner")]].
Proof.
  apply (Panel_valid_iff_children_valid
           [("children", JArray [JObject [("type", JString "spinner")]]);
            ("type", JString "panel")]
           [JObject [("type", JString "spinner")]] eq_refl eq_refl).
  intros k [<-|[<-|[]]]; [by right | by left].
Defined.

(** X16: a form object with a string [name] and no property besides
    [type], [children] and [name] is accepted exactly when every entry of
    [children] is accepted by [InputStruct] or by [ButtonStruct]; a form
    without children is accepted. *)
Theorem Form_valid_iff_children_valid
    (fields : list (string * json)) (children : list json) (name : string) :
  get "type" fields = JString NodeType.Form ->
  get "children" fields = JArray children ->
  get "name" fields = JString name ->
  (forall k, In k (keys fields) -> k = "type" ∨ k = "children" ∨ k = "name") ->
  is_valid ComponentStruct (JObject fields)
  = forallb (fun c => is_valid InputStruct c || is_valid ButtonStruct c)
      children.
Proof.
  intros Htype Hchildren Hname Hkeys. apply Bool.eq_iff_eq_true. split.
  - intros Hval. apply forallb_forall. intros child Hin.
    assert (HF : In (NodeType.Form, FormStruct) kinds) by in_list.
    pose proof (is_valid_ComponentStruct_tag _ _ _ HF Htype Hval) as Hrun.
    apply run_FormStruct_children in Hrun as (fs & cs & Hfs & Hget & Hall).
    injection Hfs as <-. rewrite Hchildren in Hget. injection Hget as <-.
    rewrite !is_valid_unfold by reflexivity.
    apply orb_true_iff. exact (Hall child Hin).
  - intros Hall. apply (kinds_valid NodeType.Form FormStruct); [in_list|].
    rewrite is_valid_unfold by reflexivity.
    change FormStruct with (object (schema_of FormStruct)).
    apply run_object_intro.
    + intros k T [H|[H|[H|[]]]]; inversion H; subst; clear H.
      * rewrite Htype. reflexivity.
      * rewrite Hchildren. cbn [run]. apply forallb_forall. intros c Hc.
        rewrite forallb_forall in Hall. specialize (Hall c Hc).
        rewrite !is_valid_unfold in Hall by reflexivity.
        change (run (is_valid ComponentStruct) InputStruct c
                || (run (is_valid ComponentStruct) ButtonStruct c || false)
                = true).
        by rewrite orb_false_r.
      * rewrite Hname. reflexivity.
    + intros k Hk. by destruct (Hkeys k Hk) as [->|[->| ->]].
Qed.

Lemma Form_valid_iff_children_valid_witness :
  is_valid ComponentStruct
    (JObject [("type", JString "form"); ("name", JString "f");
              ("children", JArray [])])
  = true.
Proof.
  apply (Form_valid_iff_children_valid
           [("type", JString "form"); ("name", JString "f");
            ("children", JArray [])] [] "f" eq_refl eq_refl eq_refl).
  intros k [<-|[<-|[<-|[]]]]; [by left | by right; right | by right; left].
Defined.

(** * Properties of the user input events *)

Lemma run_optional_string_ (self : json -> bool) (v : json) :
  run self (optional string_) v = true ->
  v = JUndefined ∨ exists s, v = JString s.
Proof. destruct v; cbn; try discriminate; [by left | right; by eexists]. Qed.

Lemma get_JString_key (k : string) (fields : list (string * json)) s :
  get k fields = JString s -> In k (keys fields).
Proof.
  induction fields as [|[k' x] fs IH]; cbn; [discriminate|].
  destruct (String.eqb k k') eqn:E.
  - apply String.eqb_eq in E. by left.
  - intros H. right. by apply IH.
Qed.

(** X17: an accepted input change event has the tag [InputChangeEvent] and
    a string [value]; an accepted button click event has the tag
    [ButtonClickEvent] and no [value] property; in both [name] is absent or
    a string.  So no value is both, every button click event is accepted by
    [GenericEventStruct], and no input change event is. *)
Theorem event_structs (fields : list (string * json)) :
  (is_valid InputChangeEventStruct (JObject fields) = true ->
   get "type" fields = JString UserInputEventTypes.InputChangeEvent
   ∧ (exists s, get "value" fields = JString s)
   ∧ (get "name" fields = JUndefined ∨ exists s, get "name" fields = JString s)
   ∧ is_valid ButtonClickEventStruct (JObject fields) = false
   ∧ is_valid GenericEventStruct (JObject fields) = false)
  ∧ (is_valid ButtonClickEventStruct (JObject fields) = true ->
     get "type" fields = JString UserInputEventTypes.ButtonClickEvent
     ∧ existsb (String.eqb "value") (keys fields) = false
     ∧ (get "name" fields = JUndefined
        ∨ exists s, get "name" fields = JString s)
     ∧ is_valid InputChangeEventStruct (JObject fields) = false
     ∧ is_valid GenericEventStruct (JObject fields) = true).
Proof.
  set (self := is_valid ComponentStruct).
  assert (Hfield : forall T k F,
             run self (object (schema_of T)) (JObject fields) = true ->
             In (k, F) (schema_of T) -> run self F (get k fields) = true).
  { intros T k F Hrun Hk.
    destruct (run_object_field _ _ _ _ _ Hrun Hk) as (fs & Hfs & HF).
    by injection Hfs as <-. }
  split; intros Hval; rewrite is_valid_unfold in Hval by reflexivity;
    fold self in Hval.
  - change InputChangeEventStruct
      with (object (schema_of InputChangeEventStruct)) in Hval.
    pose proof (Hfield _ "type" (literal UserInputEventTypes.InputChangeEvent)
                  Hval ltac:(in_list)) as Htype.
    pose proof (Hfield _ "value" string_ Hval ltac:(in_list)) as Hvalue.
    pose proof (Hfield _ "name" (optional string_) Hval ltac:(in_list)) as Hname.
    apply run_literal in Htype. apply run_string_ in Hvalue as [s Hs].
    apply run_optional_string_ in Hname.
    split; [exact Htype|]. split; [by exists s|]. split; [exact Hname|].
    split.
    + destruct (is_valid ButtonClickEventStruct (JObject fields)) eqn:E;
        [|reflexivity].
      rewrite is_valid_unfold in E by reflexivity.
      change ButtonClickEventStruct
        with (object (schema_of ButtonClickEventStruct)) in E.
      pose proof (Hfield _ "type" (literal UserInputEventTypes.ButtonClickEvent)
                    E ltac:(in_list)) as Htype'.
      apply run_literal in Htype'. rewrite Htype in Htype'. discriminate.
    + destruct (is_valid GenericEventStruct (JObject fields)) eqn:E;
        [|reflexivity].
      rewrite is_valid_unfold in E by reflexivity.
      pose proof (get_JString_key _ _ _ Hs) as Hkey.
      pose proof (run_object_declares _ (schema_of GenericEventStruct) _ _
                    E Hkey) as Hd.
      discriminate Hd.
  - change ButtonClickEventStruct
      with (object (schema_of ButtonClickEventStruct)) in Hval.
    pose proof (Hfield _ "type" (literal UserInputEventTypes.ButtonClickEvent)
                  Hval ltac:(in_list)) as Htype.
    pose proof (Hfield _ "name" (optional string_) Hval ltac:(in_list)) as Hname.
    apply run_literal in Htype.
    pose proof Hname as Hname'. apply run_optional_string_ in Hname'.
    split; [exact Htype|]. split.
    { destruct (existsb (String.eqb "value") (keys fields)) eqn:E;
        [|reflexivity].
      apply existsb_exists in E as (k & Hk & Ek).
      apply String.eqb_eq in Ek as <-.
      pose proof (run_object_declares _ _ _ _ Hval Hk) as Hd.
      discriminate Hd. }
    split; [exact Hname'|]. split.
    + destruct (is_valid InputChangeEventStruct (JObject fields)) eqn:E;
        [|reflexivity].
      rewrite is_valid_unfold in E by reflexivity.
      change InputChangeEventStruct
        with (object (schema_of InputChangeEventStruct)) in E.
      pose proof (Hfield _ "type" (literal UserInputEventTypes.InputChangeEvent)
                    E ltac:(in_list)) as Htype'.
      apply run_literal in Htype'. rewrite Htype in Htype'. discriminate.
    + rewrite is_valid_unfold by reflexivity.
      apply run_object_intro.
      * intros k T [H|[H|[]]]; inversion H; subst; clear H.
        -- rewrite Htype. reflexivity.
        -- exact Hname.
      * intros k Hk. exact (run_object_declares _ _ _ _ Hval Hk).
Qed.

Lemma event_structs_witness :
  get "type" [("type", JString "InputChangeEvent"); ("name", JString "a");
              ("value", JString "x")]
  = JString UserInputEventTypes.InputChangeEvent
  ∧ is_valid GenericEventStruct
      (JObject [("type", JString "ButtonClickEvent")]) = true.
Proof.
  split.
  - destruct (event_structs
                [("type", JString "InputChangeEvent"); ("name", JString "a");
                 ("value", JString "x")]) as [Hinput _].
    apply Hinput. reflexivity.
  - destruct (event_structs [("type", JString "ButtonClickEvent")])
      as [_ Hclick].
    apply Hclick. reflexivity.
Defined.

(** * The complete field contracts *)

Section Contracts.
Variable self : json -> bool.

Lemma run_literal_iff (constant : string) (v : json) :
  run self (literal constant) v = true <-> v = JString constant.
Proof.
  split; [apply run_literal|]. intros ->. cbn. apply String.eqb_refl.
Qed.

Lemma run_string_iff (v : json) : run self string_ v = true <-> isStr v.
Proof.
  split; [apply run_string_|]. intros [s ->]. reflexivity.
Qed.

Lemma run_optional_string_iff (v : json) :
  run self (optional string_) v = true <-> optStr v.
Proof.
  split; [apply run_optional_string_|].
  intros [->|[s ->]]; reflexivity.
Qed.

Lemma run_optional_enum_iff (allowed : list string) (v : json) :
  run self (optional (union_ (map literal allowed))) v = true
  <-> optEnum allowed v.
Proof.
  split.
  - intros H. apply run_optional_literals in H as [->|(c & Hc & ->)];
      [by left | right; by exists c].
  - intros [->|(s & -> & Hs)]; [reflexivity|].
    cbn [run]. apply existsb_exists. exists (literal s). split.
    + apply in_map_iff. by exists s.
    + cbn. apply String.eqb_refl.
Qed.

Lemma run_array_iff (Element : Struct) (v : json) :
  run self (array Element) v = true
  <-> exists elements,
        v = JArray elements
        ∧ Forall (fun e => run self Element e = true) elements.
Proof.
  split.
  - intros H. apply run_array in H as (els & -> & Hall).
    exists els. split; [reflexivity|]. apply Forall_forall.
    intros e He. apply Hall. by apply list_elem_of_In.
  - intros (els & -> & Hall). cbn. apply forallb_forall.
    intros e He. rewrite Forall_forall in Hall. apply Hall.
    by apply list_elem_of_In.
Qed.

Lemma declares_In (k : string) (schema : list (string * Struct)) :
  declares k schema = true <-> In k (map fst schema).
Proof.
  unfold declares. rewrite existsb_exists, in_map_iff. split.
  - intros (kT & Hin & Heq). apply String.eqb_eq in Heq. by exists kT.
  - intros (kT & Heq & Hin). exists kT. split; [exact Hin|].
    apply String.eqb_eq. by symmetry.
Qed.

Lemma run_object_iff (schema : list (string * Struct))
    (fields : list (string * json)) :
  run self (object schema) (JObject fields) = true
  <-> Forall (fun kT => run self (snd kT) (get (fst kT) fields) = true) schema
      ∧ onlyKeys (map fst schema) fields.
Proof.
  split.
  - intros Hrun. split.
    + apply Forall_forall. intros [k T] Hin. apply list_elem_of_In in Hin.
      destruct (run_object_field self _ _ _ _ Hrun Hin) as (fs & Hfs & HT).
      by injection Hfs as <-.
    + intros k Hk. apply declares_In.
      exact (run_object_declares self _ _ _ Hrun Hk).
  - intros [Hall Hkeys]. apply run_object_intro.
    + intros k T Hin. rewrite Forall_forall in Hall.
      apply (Hall (k, T)). by apply list_elem_of_In.
    + intros k Hk. apply declares_In. by apply Hkeys.
Qed.

Lemma run_NodeContract (tag : string) (fields : list (string * json)) :
  run self (object [("type", literal tag)]) (JObject fields) = true
  <-> NodeContract tag fields.
Proof.
  rewrite run_object_iff, !Forall_cons, Forall_nil. cbn [fst snd]. rewrite run_literal_iff. cbn [map fst]. unfold NodeContract. tauto.
Qed.

Lemma run_LiteralContract (tag : string) (fields : list (string * json)) :
  run self (object [("type", literal tag); ("value", string_)]) (JObject fields)
  = true
  <-> LiteralContract tag fields.
Proof.
  rewrite run_object_iff, !Forall_cons, Forall_nil. cbn [fst snd]. rewrite run_literal_iff, run_string_iff.
  cbn [map fst]. unfold LiteralContract. tauto.
Qed.

Lemma run_ButtonContract (fields : list (string * json)) :
  run self ButtonStruct (JObject fields) = true <-> ButtonContract fields.
Proof.
  change ButtonStruct
    with (object [("type", literal "button"); ("value", string_);
                  ("variant",
                   optional (union_ (map literal ["primary"; "secondary"])));
                  ("buttonType",
                   optional (union_ (map literal ["button"; "submit"])));
                  ("name", optional string_)]).
  rewrite run_object_iff, !Forall_cons, Forall_nil. cbn [fst snd].
  rewrite run_literal_iff, run_string_iff, !run_optional_enum_iff,
    run_optional_string_iff.
  cbn [map fst]. unfold ButtonContract. tauto.
Qed.

Lemma run_InputContract (fields : list (string * json)) :
  run self InputStruct (JObject fields) = true <-> InputContract fields.
Proof.
  change InputStruct
    with (object [("type", literal "input"); ("value", optional string_);
                  ("name", string_);
                  ("inputType",
                   optional (union_ (map literal
                     ["text"; "password"; "number"; "search"])));
                  ("placeholder", optional string_);
                  ("label", optional string_)]).
  rewrite run_object_iff, !Forall_cons, Forall_nil. cbn [fst snd].
  rewrite run_literal_iff, run_string_iff, run_optional_enum_iff,
    !run_optional_string_iff.
  cbn [map fst]. unfold InputContract. tauto.
Qed.

Lemma run_FormComponentContract (v : json) :
  run self FormComponentStruct v = true <-> FormComponentContract v.
Proof.
  change (run self FormComponentStruct v)
    with (run self InputStruct v || (run self ButtonStruct v || false)).
  rewrite orb_false_r, orb_true_iff. unfold FormComponentContract. split.
  - intros [H|H].
    + pose proof H as H'. change InputStruct with (object (schema_of InputStruct)) in H'.
      destruct v; try discriminate H'.
      eexists. split; [reflexivity|]. left. by apply run_InputContract.
    + pose proof H as H'. change ButtonStruct with (object (schema_of ButtonStruct)) in H'.
      destruct v; try discriminate H'.
      eexists. split; [reflexivity|]. right. by apply run_ButtonContract.
  - intros (fs & -> & [H|H]).
    + left. by apply run_InputContract.
    + right. by apply run_ButtonContract.
Qed.

Lemma run_PanelStruct_iff (fields : list (string * json)) :
  run self PanelStruct (JObject fields) = true
  <-> get "type" fields = JString "panel"
      ∧ (exists children,
            get "children" fields = JArray children
            ∧ Forall (fun c => self c = true) children)
      ∧ onlyKeys ["type"; "children"] fields.
Proof.
  change PanelStruct
    with (object [("type", literal "panel"); ("children", array lazy_)]).
  rewrite run_object_iff, !Forall_cons, Forall_nil. cbn [fst snd]. rewrite run_literal_iff, run_array_iff.
  cbn [run map fst]. tauto.
Qed.

Lemma run_FormStruct_iff (fields : list (string * json)) :
  run self FormStruct (JObject fields) = true
  <-> get "type" fields = JString "form"
      ∧ (exists children,
            get "children" fields = JArray children
            ∧ Forall FormComponentContract children)
      ∧ isStr (get "name" fields)
      ∧ onlyKeys ["type"; "children"; "name"] fields.
Proof.
  change FormStruct
    with (object [("type", literal "form");
                  ("children", array FormComponentStruct);
                  ("name", string_)]).
  rewrite run_object_iff, !Forall_cons, Forall_nil. cbn [fst snd]. rewrite run_literal_iff, run_array_iff, run_string_iff.
  cbn [map fst].
  assert (Hch : forall children,
             Forall (fun e => run self FormComponentStruct e = true) children
             <-> Forall FormComponentContract children).
  { intros children. apply Forall_iff. intros c.
    apply run_FormComponentContract. }
  split.
  - intros [(Ht & (cs & Hcs & Hall) & Hn & _) Hk].
    repeat split; try assumption. exists cs. split; [exact Hcs|].
    by apply Hch.
  - intros (Ht & (cs & Hcs & Hall) & Hn & Hk).
    repeat split; try assumption. exists cs. split; [exact Hcs|].
    by apply Hch.
Qed.

End Contracts.

Lemma depth_child (fields : list (string * json)) (k : string)
    (children : list json) (child : json) :
  get k fields = JArray children -> In child children ->
  depth child < depth (JObject fields).
Proof.
  intros Hget Hin. pose proof (depth_get k fields) as H1.
  pose proof (depth_element child children Hin) as H2.
  rewrite Hget in H1. lia.
Qed.

(** Validation against the union and the contracts of the specification
    agree, at every depth. *)
Lemma is_valid_contract (n : nat) :
  forall v, depth v < n ->
    is_valid ComponentStruct v = true <-> ComponentContract v.
Proof.
  induction n as [|n IH]; intros v Hn; [lia|]. split.
  - intros Hval.
    apply is_valid_ComponentStruct in Hval as (tag & T & Hin & HT).
    destruct (kinds_object _ _ Hin) as (HTobj & Htype & Hg).
    rewrite is_valid_unfold in HT by exact Hg.
    pose proof HT as HT'. rewrite HTobj in HT'.
    destruct (run_object_field _ _ _ _ _ HT' Htype) as (fs & -> & _).
    clear HT' HTobj Htype Hg. cbn in Hin.
    repeat (destruct Hin as [Hin|Hin]; [inversion Hin; subst; clear Hin|]);
      [..|destruct Hin].
    + apply Copyable_contract. by apply (run_LiteralContract (is_valid ComponentStruct) "copyable").
    + apply Divider_contract. by apply (run_NodeContract (is_valid ComponentStruct) "divider").
    + apply Heading_contract. by apply (run_LiteralContract (is_valid ComponentStruct) "heading").
    + apply run_PanelStruct_iff in HT as (Ht & (cs & Hcs & Hall) & Hk).
      apply (Panel_contract fs cs Ht Hcs); [|exact Hk].
      apply Forall_forall. intros c Hc. rewrite Forall_forall in Hall.
      apply IH; [|by apply Hall].
      apply list_elem_of_In in Hc.
      pose proof (depth_child _ _ _ _ Hcs Hc). lia.
    + apply Spinner_contract. by apply (run_NodeContract (is_valid ComponentStruct) "spinner").
    + apply Text_contract. by apply (run_LiteralContract (is_valid ComponentStruct) "text").
    + apply Button_contract. by apply run_ButtonContract in HT.
    + apply Input_contract. by apply run_InputContract in HT.
    + apply run_FormStruct_iff in HT as (Ht & (cs & Hcs & Hall) & Hname & Hk).
      exact (Form_contract fs cs Ht Hcs Hall Hname Hk).
  - intros Hc.
    destruct Hc as [fs H|fs H|fs H|fs cs Ht Hcs Hall Hk|fs H|fs H|fs H|fs H
                   |fs cs Ht Hcs Hall Hname Hk].
    + apply (kinds_valid NodeType.Copyable CopyableStruct); [in_list|].
      rewrite is_valid_unfold by reflexivity.
      by apply (run_LiteralContract (is_valid ComponentStruct) "copyable").
    + apply (kinds_valid NodeType.Divider DividerStruct); [in_list|].
      rewrite is_valid_unfold by reflexivity.
      by apply (run_NodeContract (is_valid ComponentStruct) "divider").
    + apply (kinds_valid NodeType.Heading HeadingStruct); [in_list|].
      rewrite is_valid_unfold by reflexivity.
      by apply (run_LiteralContract (is_valid ComponentStruct) "heading").
    + apply (kinds_valid NodeType.Panel PanelStruct); [in_list|].
      rewrite is_valid_unfold by reflexivity.
      apply run_PanelStruct_iff. split; [exact Ht|]. split; [|exact Hk].
      exists cs. split; [exact Hcs|].
      apply Forall_forall. intros c Hc. rewrite Forall_forall in Hall.
      apply IH; [|by apply Hall].
      apply list_elem_of_In in Hc.
      pose proof (depth_child _ _ _ _ Hcs Hc). lia.
    + apply (kinds_valid NodeType.Spinner SpinnerStruct); [in_list|].
      rewrite is_valid_unfold by reflexivity.
      by apply (run_NodeContract (is_valid ComponentStruct) "spinner").
    + apply (kinds_valid NodeType.Text TextStruct); [in_list|].
      rewrite is_valid_unfold by reflexivity.
      by apply (run_LiteralContract (is_valid ComponentStruct) "text").
    + apply (kinds_valid NodeType.Button ButtonStruct); [in_list|].
      rewrite is_valid_unfold by reflexivity. by apply run_ButtonContract.
    + apply (kinds_valid NodeType.Input InputStruct); [in_list|].
      rewrite is_valid_unfold by reflexivity. by apply run_InputContract.
    + apply (kinds_valid NodeType.Form FormStruct); [in_list|].
      rewrite is_valid_unfold by reflexivity.
      apply run_FormStruct_iff. split; [exact Ht|]. split; [by exists cs|].
      by split.
Qed.

(** The contract of a kind names its tag and allows only its fields. *)
Lemma ComponentContract_keys (fields : list (string * json)) :
  ComponentContract (JObject fields) ->
  exists tag allowed,
    In (tag, allowed) contractFields
    ∧ get "type" fields = JString tag ∧ onlyKeys allowed fields.
Proof.
  intros Hc. inversion Hc as [fs H|fs H|fs H|fs cs Ht Hcs Hall Hk|fs H|fs H
                             |fs H|fs H|fs cs Ht Hcs Hall Hname Hk]; subst.
  - destruct H as (Ht & _ & Hk). exists "copyable", ["type"; "value"].
    split; [in_list|by split].
  - destruct H as (Ht & Hk). exists "divider", ["type"].
    split; [in_list|by split].
  - destruct H as (Ht & _ & Hk). exists "heading", ["type"; "value"].
    split; [in_list|by split].
  - exists "panel", ["type"; "children"]. split; [in_list|by split].
  - destruct H as (Ht & Hk). exists "spinner", ["type"].
    split; [in_list|by split].
  - destruct H as (Ht & _ & Hk). exists "text", ["type"; "value"].
    split; [in_list|by split].
  - destruct H as (Ht & _ & _ & _ & _ & Hk).
    exists "button", ["type"; "value"; "variant"; "buttonType"; "name"].
    split; [in_list|by split].
  - destruct H as (Ht & _ & _ & _ & _ & _ & Hk).
    exists "input",
      ["type"; "value"; "name"; "inputType"; "placeholder"; "label"].
    split; [in_list|by split].
  - exists "form", ["type"; "children"; "name"]. split; [in_list|by split].
Qed.

Lemma contractFields_functional tag allowed allowed' :
  In (tag, allowed) contractFields -> In (tag, allowed') contractFields ->
  allowed = allowed'.
Proof.
  cbn. intros H H'.
  repeat (destruct H as [H|H]; [inversion H; subst; clear H|]);
    [..|destruct H];
    repeat (destruct H' as [H'|H']; [inversion H'; subst; clear H'|]);
    try reflexivity; try destruct H'.
Qed.

(** C9: the union accepts a raw value exactly when the value matches the
    complete field contract of one of the nine kinds: the tag of the kind,
    its required fields present with their types, its optional fields
    absent or with their types, the children of a panel accepted in turn,
    the children of a form inputs or buttons, and no other field.  So a
    value whose tag names a kind and that carries a field outside the
    contract of that kind is rejected. *)
Theorem ComponentStruct_complete_contract (v : json) :
  (is_valid ComponentStruct v = true <-> ComponentContract v)
  ∧ (forall fields tag allowed k,
        v = JObject fields ->
        In (tag, allowed) contractFields ->
        get "type" fields = JString tag ->
        In k (keys fields) ->
        ~ In k allowed ->
        is_valid ComponentStruct v = false).
Proof.
  assert (Hiff : is_valid ComponentStruct v = true <-> ComponentContract v)
    by (apply (is_valid_contract (S (depth v))); lia).
  split; [exact Hiff|].
  intros fields tag allowed k -> Hin Htype Hk Hnot.
  destruct (is_valid ComponentStruct (JObject fields)) eqn:E; [|reflexivity].
  pose proof (proj1 Hiff eq_refl) as Hc.
  apply ComponentContract_keys in Hc
    as (tag' & allowed' & Hin' & Htype' & Hkeys).
  rewrite Htype in Htype'. injection Htype' as <-.
  rewrite (contractFields_functional _ _ _ Hin Hin') in Hnot.
  destruct (Hnot (Hkeys k Hk)).
Qed.

Lemma ComponentStruct_complete_contract_witness :
  is_valid ComponentStruct
    (JObject [("type", JString "divider"); ("value", JString "x")]) = false
  ∧ ComponentContract
      (JObject [("type", JString "input"); ("name", JString "a")]).
Proof.
  split.
  - destruct (ComponentStruct_complete_contract
                (JObject [("type", JString "divider"); ("value", JString "x")]))
      as [_ Hextra].
    apply (Hextra [("type", JString "divider"); ("value", JString "x")]
             "divider" ["type"] "value").
    + reflexivity.
    + right; left; reflexivity.
    + reflexivity.
    + right; left; reflexivity.
    + intros [H|[]]. discriminate H.
  - destruct (ComponentStruct_complete_contract
                (JObject [("type", JString "input"); ("name", JString "a")]))
      as [[Hcontract _] _].
    apply Hcontract. reflexivity.
Defined.

(** * Properties of the failures *)

















(** ** Enough fuel for the failures *)





(** ** What validation reports *)








